(** * SatCat: a filterable satellite catalogue (src/satcat.js)

    The class [SatCat] extends the built-in [Array] with ten one-line
    filter methods.  Every method is a call of [Array.prototype.filter]
    with an arrow function that reads one field of a record.

    The development embeds
    - the primitive values a catalogue record holds and the abstract
      operations of the language that the arrow functions use
      ([ToNumber], [ToString], [SameValueZero], [===], [<=], [>=],
      [Array.prototype.includes]);
    - the arrays of the program as objects in a store (indexed elements
      and a [length]), with [push], [CreateDataProperty] and the loop of
      [Array.prototype.filter], which allocates its result through the
      constructor of the receiver's class;
    - the class itself: constructor and the ten methods.

    The two conversions between strings and numbers and the regular
    expression engine belong to the host; they are an interface
    ([Host]).  Every theorem holds for every host. *)

From Stdlib Require Import QArith Ascii String DecimalString.
From stdpp Require Import base option list gmap strings fin_maps.

Local Open Scope string_scope.

(* ================================================================= *)
(** ** Values *)

(** A Number: the finite values are the rationals they denote; the two
    zeros are one value (nothing below tells them apart). *)
Inductive number :=
  | NaN
  | Finite (q : Q)
  | PosInf
  | NegInf.

(** The primitive values a field of a record holds. *)
Inductive value :=
  | VUndefined
  | VNull
  | VBool (b : bool)
  | VNum (n : number)
  | VStr (s : string).

(** The errors that the modelled code can raise. *)
Inductive error :=
  | SyntaxError
  | TypeError.

(** A satellite record: an object with string keys. *)
Abbreviation record := (gmap string value).

(** [sat.KEY]: reading a property that the object lacks gives
    [undefined]. *)
Definition Get (sat : record) (key : string) : value :=
  default VUndefined (sat !! key).

(* ================================================================= *)
(** ** The host *)

(** [StringToNumber] and [NumberToString] are the conversions applied by
    [Number(s)] and by [ToString(n)].  [RegExpCreate pattern flags] is
    [new RegExp(pattern, flags)]: [None] when the constructor raises
    [SyntaxError], a compiled expression otherwise; [RegExpTest] is [regex.test(s)] on an
    expression without the global and sticky flags (no [lastIndex]
    state). *)
Class Host := {
  StringToNumber : string → number;
  NumberToString : number → string;
  RegExp : Type;
  RegExpCreate : string → string → option RegExp;
  RegExpTest : RegExp → string → bool;
}.

(** ASCII case folding, the part of the [Canonicalize] operation that is
    independent of the Unicode tables. *)
Definition Canonicalize (c : ascii) : ascii :=
  let n := nat_of_ascii c in
  if (97 <=? n)%nat && (n <=? 122)%nat then ascii_of_nat (n - 32) else c.

Fixpoint fold_case (s : string) : string :=
  match s with
  | EmptyString => EmptyString
  | String c s' => String (Canonicalize c) (fold_case s')
  end.

(** What the flag [i] promises: an expression compiled with exactly this
    flag does not distinguish two subjects that differ in the case of
    ASCII letters only. *)
Definition IgnoreCase (H : Host) : Prop :=
  ∀ pattern regex s1 s2,
    RegExpCreate pattern "i" = Some regex →
    fold_case s1 = fold_case s2 →
    RegExpTest regex s1 = RegExpTest regex s2.

(* ================================================================= *)
(** ** Abstract operations on values *)

Section Operations.
Context `{Host}.

Definition ToNumber (v : value) : number :=
  match v with
  | VUndefined => NaN
  | VNull => Finite 0
  | VBool true => Finite 1
  | VBool false => Finite 0
  | VNum n => n
  | VStr s => StringToNumber s
  end.

Definition ToString (v : value) : string :=
  match v with
  | VUndefined => "undefined"
  | VNull => "null"
  | VBool true => "true"
  | VBool false => "false"
  | VNum n => NumberToString n
  | VStr s => s
  end.

(** [Number::lessThan]: [None] is the result [undefined]. *)
Definition Number_lessThan (x y : number) : option bool :=
  match x, y with
  | NaN, _ | _, NaN => None
  | PosInf, _ => Some false
  | _, PosInf => Some true
  | _, NegInf => Some false
  | NegInf, _ => Some true
  | Finite p, Finite q => Some (negb (Qle_bool q p))
  end.

(** [x <= y] is "not ([y < x] or undefined)". *)
Definition Number_le (x y : number) : bool :=
  match Number_lessThan y x with
  | Some false => true
  | _ => false
  end.

(** [x >= y] is "not ([x < y] or undefined)". *)
Definition Number_ge (x y : number) : bool :=
  match Number_lessThan x y with
  | Some false => true
  | _ => false
  end.

(** [Number::sameValueZero]. *)
Definition Number_sameValueZero (x y : number) : bool :=
  match x, y with
  | NaN, NaN => true
  | Finite p, Finite q => Qeq_bool p q
  | PosInf, PosInf => true
  | NegInf, NegInf => true
  | _, _ => false
  end.

(** [Number::equal], used by [===]. *)
Definition Number_equal (x y : number) : bool :=
  match x, y with
  | NaN, _ | _, NaN => false
  | _, _ => Number_sameValueZero x y
  end.

Definition SameValueZero (x y : value) : bool :=
  match x, y with
  | VUndefined, VUndefined => true
  | VNull, VNull => true
  | VBool a, VBool b => Bool.eqb a b
  | VNum m, VNum n => Number_sameValueZero m n
  | VStr s, VStr t => String.eqb s t
  | _, _ => false
  end.

Definition IsStrictlyEqual (x y : value) : bool :=
  match x, y with
  | VNum m, VNum n => Number_equal m n
  | _, _ => SameValueZero x y
  end.

(** [array.includes(searchElement)]: a linear scan with
    [SameValueZero]. *)
Fixpoint Array_includes (array : list value) (searchElement : value) : bool :=
  match array with
  | [] => false
  | x :: array' =>
      if SameValueZero x searchElement then true
      else Array_includes array' searchElement
  end.
End Operations.

(* ================================================================= *)
(** ** The store and the monad of the methods *)

(** An array object: its indexed properties and its [length].  An index
    below [length] without an element is a hole. *)
Record array := Array {
  elements : gmap nat record;
  array_length : nat;
}.

Abbreviation loc := positive.
Abbreviation store := (gmap loc array).

Inductive completion (A : Type) :=
  | Normal (a : A)
  | Throw (e : error).
Arguments Normal {A} a.
Arguments Throw {A} e.

(** A computation reads and updates the store and completes normally or
    abruptly. *)
Definition M (A : Type) : Type := store → completion A * store.

#[global] Instance M_ret : MRet M := λ A a σ, (Normal a, σ).

#[global] Instance M_bind : MBind M := λ A B k c σ,
  match c σ with
  | (Normal a, σ') => k a σ'
  | (Throw e, σ') => (Throw e, σ')
  end.

Definition throw {A} (e : error) : M A := λ σ, (Throw e, σ).

(** A new object gets a location that the store does not use. *)
Definition alloc (a : array) : M loc := λ σ,
  let l := fresh (dom σ) in (Normal l, <[l := a]> σ).

Definition read (l : loc) : M array := λ σ,
  match σ !! l with
  | Some a => (Normal a, σ)
  | None => (Throw TypeError, σ)
  end.

Definition write (l : loc) (a : array) : M unit := λ σ,
  (Normal (), <[l := a]> σ).

(** The array object that holds the sequence [xs] without holes. *)
Definition dense (xs : list record) : array :=
  Array (map_seq 0 xs) (length xs).

(* ================================================================= *)
(** ** Array.prototype *)

(** [this.push(x)]: [x] is stored at index [length], which grows by
    one. *)
Definition Array_push (this : loc) (x : record) : M unit :=
  a ← read this;
  write this (Array (<[array_length a := x]> (elements a))
                    (S (array_length a))).

(** [CreateDataProperty(A, k, x)] on an array: an index at or beyond
    [length] extends the array. *)
Definition CreateDataProperty (A : loc) (k : nat) (x : record) : M unit :=
  a ← read A;
  write A (Array (<[k := x]> (elements a)) (array_length a `max` S k)).

(** The argument of the constructor: an array of records, or the number
    that [ArraySpeciesCreate] passes. *)
Inductive constructor_argument :=
  | DataArray (satCatData : list record)
  | DataNumber (n : number).

(** The loop [for (i = 0; i < satCatData.length; i++)
    this.push(satCatData[i])] over an array. *)
Fixpoint constructor_loop (this : loc) (satCatData : list record) : M unit :=
  match satCatData with
  | [] => mret ()
  | x :: rest => Array_push this x;; constructor_loop this rest
  end.

(** [new SatCat(satCatData)].  [super()] makes an empty array.  A number
    has no [length]: the bound of the loop is [undefined], the test
    [0 < undefined] is false and nothing is pushed. *)
Definition SatCat_constructor (satCatData : constructor_argument) : M loc :=
  this ← alloc (Array ∅ 0);
  match satCatData with
  | DataArray data => constructor_loop this data;; mret this
  | DataNumber _ => mret this
  end.

(** The loop of [Array.prototype.filter]: [n] iterations from index [k];
    [to] is the next index of the result [A].  A hole of [O] is
    skipped. *)
Fixpoint filter_loop (callbackfn : record → bool) (O A : loc)
    (k to n : nat) : M unit :=
  match n with
  | 0 => mret ()
  | S n' =>
      o ← read O;
      match elements o !! k with
      | Some kValue =>
          if callbackfn kValue
          then CreateDataProperty A to kValue;;
               filter_loop callbackfn O A (S k) (S to) n'
          else filter_loop callbackfn O A (S k) to n'
      | None => filter_loop callbackfn O A (S k) to n'
      end
  end.

(** [this.filter(callbackfn)] on an instance of the class: the length is
    read once, the result is [new SatCat(0)] (the species constructor of
    a subclass of [Array] is the subclass). *)
Definition Array_filter (callbackfn : record → bool) (this : loc) : M loc :=
  o ← read this;
  A ← SatCat_constructor (DataNumber (Finite 0));
  filter_loop callbackfn this A 0 0 (array_length o);;
  mret A.

(* ================================================================= *)
(** ** The class SatCat *)

Section SatCat.
Context `{Host}.

(** [new RegExp(pattern, flags)]. *)
Definition RegExp_new (pattern flags : string) : M RegExp :=
  match RegExpCreate pattern flags with
  | Some regex => mret regex
  | None => throw SyntaxError
  end.

Definition filterByTypes (objectTypes : list value) (this : loc) : M loc :=
  Array_filter (λ sat, Array_includes objectTypes (Get sat "OBJECT_TYPE")) this.

Definition filterByNamePattern (pattern : string) (this : loc) : M loc :=
  regex ← RegExp_new pattern "i";
  Array_filter (λ sat, RegExpTest regex (ToString (Get sat "SATNAME"))) this.

Definition filterByCountryCodes (countryCodes : list value) (this : loc) : M loc :=
  Array_filter (λ sat, Array_includes countryCodes (Get sat "COUNTRY")) this.

Definition filterByStillOnOrbit (this : loc) : M loc :=
  Array_filter (λ sat, IsStrictlyEqual (Get sat "DECAY") VNull) this.

Definition filterByLaunchYears (years : list value) (this : loc) : M loc :=
  Array_filter
    (λ sat, Array_includes years (VNum (ToNumber (Get sat "LAUNCH_YEAR")))) this.

Definition filterByLaunchYearRange (startYear endYear : number) (this : loc) : M loc :=
  Array_filter
    (λ sat,
       let launchYear := ToNumber (Get sat "LAUNCH_YEAR") in
       Number_ge launchYear startYear && Number_le launchYear endYear) this.

Definition filterByMaxPerigee (maxPerigee : number) (this : loc) : M loc :=
  Array_filter
    (λ sat,
       let perigee := ToNumber (Get sat "PERIGEE") in
       Number_le perigee maxPerigee) this.

Definition filterByMinApogee (minApogee : number) (this : loc) : M loc :=
  Array_filter
    (λ sat,
       let apogee := ToNumber (Get sat "APOGEE") in
       Number_ge apogee minApogee) this.

Definition filterByNoradIds (noradIds : list value) (this : loc) : M loc :=
  Array_filter (λ sat, Array_includes noradIds (Get sat "NORAD_CAT_ID")) this.

Definition filterByNoradIdPattern (pattern : string) (this : loc) : M loc :=
  regex ← RegExp_new pattern "i";
  Array_filter (λ sat, RegExpTest regex (ToString (Get sat "NORAD_CAT_ID"))) this.
End SatCat.

(* ================================================================= *)
(** ** Calls of the filter methods *)

(** A call of one of the ten methods, with its arguments. *)
Inductive filter_call :=
  | FilterByTypes (objectTypes : list value)
  | FilterByNamePattern (pattern : string)
  | FilterByCountryCodes (countryCodes : list value)
  | FilterByStillOnOrbit
  | FilterByLaunchYears (years : list value)
  | FilterByLaunchYearRange (startYear endYear : number)
  | FilterByMaxPerigee (maxPerigee : number)
  | FilterByMinApogee (minApogee : number)
  | FilterByNoradIds (noradIds : list value)
  | FilterByNoradIdPattern (pattern : string).

Definition method_name (c : filter_call) : string :=
  match c with
  | FilterByTypes _ => "filterByTypes"
  | FilterByNamePattern _ => "filterByNamePattern"
  | FilterByCountryCodes _ => "filterByCountryCodes"
  | FilterByStillOnOrbit => "filterByStillOnOrbit"
  | FilterByLaunchYears _ => "filterByLaunchYears"
  | FilterByLaunchYearRange _ _ => "filterByLaunchYearRange"
  | FilterByMaxPerigee _ => "filterByMaxPerigee"
  | FilterByMinApogee _ => "filterByMinApogee"
  | FilterByNoradIds _ => "filterByNoradIds"
  | FilterByNoradIdPattern _ => "filterByNoradIdPattern"
  end.

(** The methods that the class body declares, in the order of the
    source. *)
Definition SatCat_prototype : list string :=
  [ "constructor"; "filterByTypes"; "filterByNamePattern";
    "filterByCountryCodes"; "filterByStillOnOrbit"; "filterByLaunchYears";
    "filterByLaunchYearRange"; "filterByMaxPerigee"; "filterByMinApogee";
    "filterByNoradIds"; "filterByNoradIdPattern" ].

(** The properties that an instance inherits from [Array.prototype] and
    [Object.prototype]. *)
Definition Array_prototype : list string :=
  [ "at"; "concat"; "copyWithin"; "entries"; "every"; "fill"; "filter";
    "find"; "findIndex"; "findLast"; "findLastIndex"; "flat"; "flatMap";
    "forEach"; "includes"; "indexOf"; "join"; "keys"; "lastIndexOf";
    "length"; "map"; "pop"; "push"; "reduce"; "reduceRight"; "reverse";
    "shift"; "slice"; "some"; "sort"; "splice"; "toLocaleString";
    "toReversed"; "toSorted"; "toSpliced"; "toString"; "unshift";
    "values"; "with" ].

Definition Object_prototype : list string :=
  [ "__defineGetter__"; "__defineSetter__"; "__lookupGetter__";
    "__lookupSetter__"; "__proto__"; "hasOwnProperty"; "isPrototypeOf";
    "propertyIsEnumerable"; "valueOf" ].

(** Is [name] a property of an instance of the class?  The instance has
    its indices and [length]; every other name is found on the prototype
    chain or not at all. *)
Definition HasProperty (name : string) : bool :=
  bool_decide (name ∈ (SatCat_prototype ++ Array_prototype ++ Object_prototype)%list).

(** An argument of a call: a primitive value or an array of them. *)
Inductive argument :=
  | Arg (v : value)
  | ArgArray (vs : list value).

(** An integer as a Number. *)
Definition integer (z : Z) : number := Finite (inject_Z z).

(** The array of all the integers from [first] to [last]. *)
Definition integers_from_to (first last : Z) : list value :=
  (λ z, VNum (integer z)) <$> seqZ first (last - first + 1).

Section Calls.
Context `{Host}.

Definition call (c : filter_call) (this : loc) : M loc :=
  match c with
  | FilterByTypes objectTypes => filterByTypes objectTypes this
  | FilterByNamePattern pattern => filterByNamePattern pattern this
  | FilterByCountryCodes countryCodes => filterByCountryCodes countryCodes this
  | FilterByStillOnOrbit => filterByStillOnOrbit this
  | FilterByLaunchYears years => filterByLaunchYears years this
  | FilterByLaunchYearRange startYear endYear =>
      filterByLaunchYearRange startYear endYear this
  | FilterByMaxPerigee maxPerigee => filterByMaxPerigee maxPerigee this
  | FilterByMinApogee minApogee => filterByMinApogee minApogee this
  | FilterByNoradIds noradIds => filterByNoradIds noradIds this
  | FilterByNoradIdPattern pattern => filterByNoradIdPattern pattern this
  end.

(** The arguments of a call, as the documentation of the methods
    types them. *)
Definition bind_arguments (name : string) (arguments : list argument)
    : option filter_call :=
  match arguments with
  | [] =>
      if String.eqb name "filterByStillOnOrbit" then Some FilterByStillOnOrbit
      else None
  | [ArgArray vs] =>
      if String.eqb name "filterByTypes" then Some (FilterByTypes vs)
      else if String.eqb name "filterByCountryCodes" then Some (FilterByCountryCodes vs)
      else if String.eqb name "filterByLaunchYears" then Some (FilterByLaunchYears vs)
      else if String.eqb name "filterByNoradIds" then Some (FilterByNoradIds vs)
      else None
  | [Arg (VStr pattern)] =>
      if String.eqb name "filterByNamePattern" then Some (FilterByNamePattern pattern)
      else if String.eqb name "filterByNoradIdPattern"
      then Some (FilterByNoradIdPattern pattern)
      else None
  | [Arg (VNum n)] =>
      if String.eqb name "filterByMaxPerigee" then Some (FilterByMaxPerigee n)
      else if String.eqb name "filterByMinApogee" then Some (FilterByMinApogee n)
      else None
  | [Arg (VNum startYear); Arg (VNum endYear)] =>
      if String.eqb name "filterByLaunchYearRange"
      then Some (FilterByLaunchYearRange startYear endYear)
      else None
  | _ => None
  end.

(** [this.name(arguments)]: the call of a property that the instance
    does not have raises [TypeError] ("is not a function"); the call
    of one of the ten methods with arguments of the documented types
    runs it.  [None]: another call, which is not modelled. *)
Definition send (name : string) (arguments : list argument) (this : loc)
    : option (M loc) :=
  if HasProperty name
  then c ← bind_arguments name arguments; Some (call c this)
  else Some (throw TypeError).

(** The arrow function that a call hands to [filter]; [None] when the
    pattern of a pattern filter does not compile. *)
Definition predicate (c : filter_call) : option (record → bool) :=
  match c with
  | FilterByTypes objectTypes =>
      Some (λ sat, Array_includes objectTypes (Get sat "OBJECT_TYPE"))
  | FilterByNamePattern pattern =>
      regex ← RegExpCreate pattern "i";
      Some (λ sat, RegExpTest regex (ToString (Get sat "SATNAME")))
  | FilterByCountryCodes countryCodes =>
      Some (λ sat, Array_includes countryCodes (Get sat "COUNTRY"))
  | FilterByStillOnOrbit =>
      Some (λ sat, IsStrictlyEqual (Get sat "DECAY") VNull)
  | FilterByLaunchYears years =>
      Some (λ sat, Array_includes years (VNum (ToNumber (Get sat "LAUNCH_YEAR"))))
  | FilterByLaunchYearRange startYear endYear =>
      Some (λ sat, Number_ge (ToNumber (Get sat "LAUNCH_YEAR")) startYear
                   && Number_le (ToNumber (Get sat "LAUNCH_YEAR")) endYear)
  | FilterByMaxPerigee maxPerigee =>
      Some (λ sat, Number_le (ToNumber (Get sat "PERIGEE")) maxPerigee)
  | FilterByMinApogee minApogee =>
      Some (λ sat, Number_ge (ToNumber (Get sat "APOGEE")) minApogee)
  | FilterByNoradIds noradIds =>
      Some (λ sat, Array_includes noradIds (Get sat "NORAD_CAT_ID"))
  | FilterByNoradIdPattern pattern =>
      regex ← RegExpCreate pattern "i";
      Some (λ sat, RegExpTest regex (ToString (Get sat "NORAD_CAT_ID")))
  end.

(** The field that a numeric filter reads. *)
Definition numeric_field (c : filter_call) : option string :=
  match c with
  | FilterByLaunchYears _ | FilterByLaunchYearRange _ _ => Some "LAUNCH_YEAR"
  | FilterByMaxPerigee _ => Some "PERIGEE"
  | FilterByMinApogee _ => Some "APOGEE"
  | _ => None
  end.

(** The years of [filterByLaunchYears] are integers: [NaN] is not one
    of them. *)
Definition years_exclude_NaN (c : filter_call) : Prop :=
  match c with
  | FilterByLaunchYears years => Array_includes years (VNum NaN) = false
  | _ => True
  end.

(** The field of the record is equal to a bound of the range filter
    (for the range of years, which has two bounds: to one of them, the
    range being not empty). *)
Definition on_bound (c : filter_call) (sat : record) : Prop :=
  match c with
  | FilterByLaunchYearRange startYear endYear =>
      Number_le startYear endYear = true ∧
      (Number_equal (ToNumber (Get sat "LAUNCH_YEAR")) startYear = true ∨
       Number_equal (ToNumber (Get sat "LAUNCH_YEAR")) endYear = true)
  | FilterByMaxPerigee maxPerigee =>
      Number_equal (ToNumber (Get sat "PERIGEE")) maxPerigee = true
  | FilterByMinApogee minApogee =>
      Number_equal (ToNumber (Get sat "APOGEE")) minApogee = true
  | _ => False
  end.

(** A field that is absent, or a string that does not coerce to a
    number. *)
Definition absent_or_non_numeric (sat : record) (key : string) : Prop :=
  sat !! key = None ∨
  ∃ s, sat !! key = Some (VStr s) ∧ StringToNumber s = NaN.

(** Spec, filterByNoradIds: "record.NORAD_CAT_ID ∈ ids (string
    equality)", the identifier being "string or number": the
    identifier is compared in its string form. *)
Definition noradId_in_ids_as_string (ids : list string) (sat : record) : bool :=
  bool_decide (ToString (Get sat "NORAD_CAT_ID") ∈ ids).
End Calls.

(* ================================================================= *)
(** ** A small host *)

(** A host on which the methods run on concrete catalogues.  Numbers are
    converted exactly (no rounding to binary64); white space is the
    ASCII white space; the regular expressions are those built from
    characters, [.], [^], [$], groups, [|] and the quantifiers [*], [+]
    and [?] — a pattern with other syntax is not accepted. *)
Module SmallHost.

Definition code (c : ascii) : nat := nat_of_ascii c.

Definition is_white_space (c : ascii) : bool :=
  bool_decide (code c ∈ [9; 10; 11; 12; 13; 32]%nat).

Fixpoint skip_white_space (s : list ascii) : list ascii :=
  match s with
  | c :: s' => if is_white_space c then skip_white_space s' else s
  | [] => []
  end.

Definition trim (s : list ascii) : list ascii :=
  rev (skip_white_space (rev (skip_white_space s))).

(** The value of a digit in a base up to sixteen. *)
Definition digit (base : Z) (c : ascii) : option Z :=
  let n := Z.of_nat (code c) in
  let d := if (48 <=? n)%Z && (n <=? 57)%Z then Some (n - 48)%Z
           else if (97 <=? n)%Z && (n <=? 102)%Z then Some (n - 87)%Z
           else if (65 <=? n)%Z && (n <=? 70)%Z then Some (n - 55)%Z
           else None in
  d' ← d; if (d' <? base)%Z then Some d' else None.

(** Reads the longest run of digits: the value accumulated on [acc],
    the number of digits read, and the rest. *)
Fixpoint digits (base : Z) (s : list ascii) (acc : Z) (count : nat)
    : Z * nat * list ascii :=
  match s with
  | c :: s' =>
      match digit base c with
      | Some d => digits base s' (acc * base + d)%Z (S count)
      | None => (acc, count, s)
      end
  | [] => (acc, count, [])
  end.

(** [mantissa * 10 ^ exponent]. *)
Definition scale (mantissa exponent : Z) : Q :=
  if (0 <=? exponent)%Z then inject_Z (mantissa * 10 ^ exponent)
  else Qmake mantissa (Z.to_pos (10 ^ (- exponent))).

(** [ExponentPart], optional: the exponent when the rest of the
    literal is one, or is empty. *)
Definition exponent_part (s : list ascii) : option Z :=
  match s with
  | [] => Some 0%Z
  | c :: s' =>
      if bool_decide (code c ∈ [101; 69]%nat) then
        let '(sign, s'') :=
          match s' with
          | "+"%char :: t => (1%Z, t)
          | "-"%char :: t => ((-1)%Z, t)
          | _ => (1%Z, s')
          end in
        match digits 10 s'' 0 0 with
        | (e, S _, []) => Some (sign * e)%Z
        | _ => None
        end
      else None
  end.

(** [StrUnsignedDecimalLiteral]. *)
Definition unsigned_decimal (s : list ascii) : number :=
  if bool_decide (s = list_ascii_of_string "Infinity") then PosInf
  else
    let '(int_part, n1, rest) := digits 10 s 0 0 in
    let '(mantissa, n2, rest') :=
      match rest with
      | "."%char :: t => digits 10 t int_part 0
      | _ => (int_part, 0%nat, rest)
      end in
    if (n1 + n2 =? 0)%nat then NaN
    else match exponent_part rest' with
         | Some e => Finite (scale mantissa (e - Z.of_nat n2))
         | None => NaN
         end.

Definition negate (n : number) : number :=
  match n with
  | NaN => NaN
  | Finite q => Finite (- q)
  | PosInf => NegInf
  | NegInf => PosInf
  end.

(** [NonDecimalIntegerLiteral]: the base announced by the prefix. *)
Definition prefix_base (c : ascii) : option Z :=
  if bool_decide (code c ∈ [120; 88]%nat) then Some 16%Z
  else if bool_decide (code c ∈ [111; 79]%nat) then Some 8%Z
  else if bool_decide (code c ∈ [98; 66]%nat) then Some 2%Z
  else None.

Definition string_to_number (str : string) : number :=
  match trim (list_ascii_of_string str) with
  | [] => Finite 0
  | "+"%char :: s => unsigned_decimal s
  | "-"%char :: s => negate (unsigned_decimal s)
  | "0"%char :: c :: s =>
      match prefix_base c with
      | Some base =>
          match digits base s 0 0 with
          | (v, S _, []) => Finite (inject_Z v)
          | _ => NaN
          end
      | None => unsigned_decimal ("0"%char :: c :: s)
      end
  | s => unsigned_decimal s
  end.

(** The digits of the fraction [r / d] (with [r < d]), at most [n] of
    them. *)
Fixpoint fraction_digits (n : nat) (r d : Z) : string :=
  match n with
  | 0 => ""
  | S n' =>
      if (r =? 0)%Z then ""
      else String (ascii_of_nat (48 + Z.to_nat (10 * r / d)))
             (fraction_digits n' ((10 * r) mod d) d)
  end.

(** Decimal notation, without exponent. *)
Definition number_to_string (n : number) : string :=
  match n with
  | NaN => "NaN"
  | PosInf => "Infinity"
  | NegInf => "-Infinity"
  | Finite q =>
      let a := Z.abs (Qnum q) in
      let d := Z.pos (Qden q) in
      let sign := if (Qnum q <? 0)%Z then "-" else "" in
      let int_part := NilZero.string_of_uint (N.to_uint (Z.to_N (a / d))) in
      let r := (a mod d)%Z in
      sign ++ int_part ++
        (if (r =? 0)%Z then "" else "." ++ fraction_digits 20 r d)
  end.

(** *** Regular expressions *)

Inductive regex :=
  | Empty
  | Char (c : ascii)
  | AnyChar
  | LineStart
  | LineEnd
  | Seq (r1 r2 : regex)
  | Alt (r1 r2 : regex)
  | Star (r : regex).

(** What a quantifier may still follow: an atom takes a quantifier,
    a quantified atom takes the lazy mark [?], an assertion takes
    nothing. *)
Inductive term_kind := Atom | Quantified | Closed.

(** A group under construction: the alternatives that are complete
    and the terms of the current alternative, last term first. *)
Record frame := Frame {
  alternatives : list regex;
  terms : list (regex * term_kind);
}.

Definition sequence (ts : list (regex * term_kind)) : regex :=
  fold_left (λ acc t, Seq t.1 acc) ts Empty.

Definition close_frame (f : frame) : regex :=
  fold_right Alt (sequence (terms f)) (rev (alternatives f)).

Definition add_term (t : regex * term_kind) (f : frame) : frame :=
  Frame (alternatives f) (t :: terms f).

Definition is_syntax_character (c : ascii) : bool :=
  bool_decide (c ∈ list_ascii_of_string "^$\.*+?()[]{}|").

(** One pass over the pattern with the stack of the open groups. *)
Fixpoint parse (s : list ascii) (top : frame) (stack : list frame)
    : option regex :=
  match s with
  | [] => match stack with [] => Some (close_frame top) | _ => None end
  | "("%char :: "?"%char :: ":"%char :: s' => parse s' (Frame [] []) (top :: stack)
  | "("%char :: "?"%char :: _ => None
  | "("%char :: s' => parse s' (Frame [] []) (top :: stack)
  | ")"%char :: s' =>
      match stack with
      | parent :: stack' => parse s' (add_term (close_frame top, Atom) parent) stack'
      | [] => None
      end
  | "|"%char :: s' =>
      parse s' (Frame (sequence (terms top) :: alternatives top) []) stack
  | "*"%char :: s' =>
      match terms top with
      | (r, Atom) :: ts => parse s' (Frame (alternatives top) ((Star r, Quantified) :: ts)) stack
      | _ => None
      end
  | "+"%char :: s' =>
      match terms top with
      | (r, Atom) :: ts =>
          parse s' (Frame (alternatives top) ((Seq r (Star r), Quantified) :: ts)) stack
      | _ => None
      end
  | "?"%char :: s' =>
      match terms top with
      | (r, Atom) :: ts =>
          parse s' (Frame (alternatives top) ((Alt r Empty, Quantified) :: ts)) stack
      | (r, Quantified) :: ts =>
          parse s' (Frame (alternatives top) ((r, Closed) :: ts)) stack
      | _ => None
      end
  | "^"%char :: s' => parse s' (add_term (LineStart, Closed) top) stack
  | "$"%char :: s' => parse s' (add_term (LineEnd, Closed) top) stack
  | "."%char :: s' => parse s' (add_term (AnyChar, Atom) top) stack
  | "\"%char :: c :: s' =>
      if is_syntax_character c || Ascii.eqb c "/"
      then parse s' (add_term (Char c, Atom) top) stack
      else None
  | c :: s' =>
      if is_syntax_character c then None
      else parse s' (add_term (Char c, Atom) top) stack
  end.

(** A compiled expression and its [ignoreCase] flag. *)
Record compiled := Compiled {
  source : regex;
  ignoreCase : bool;
}.

Definition regexp_create (pattern flags : string) : option compiled :=
  r ← parse (list_ascii_of_string pattern) (Frame [] []) [];
  if String.eqb flags "i" then Some (Compiled r true)
  else if String.eqb flags "" then Some (Compiled r false)
  else None.

Definition is_line_terminator (c : ascii) : bool :=
  bool_decide (code c ∈ [10; 13]%nat).

(** The positions that a repetition reaches from [i]: an iteration
    that does not advance is dropped, so [fuel] iterations suffice
    when [fuel] is the length of the subject. *)
Fixpoint repeat_ends (step : nat → list nat) (fuel i : nat) : list nat :=
  i :: match fuel with
       | 0 => []
       | S fuel' =>
           flat_map (λ j, if (i <? j)%nat then repeat_ends step fuel' j else [])
                    (step i)
       end.

(** The positions at which a match of [r] that starts at [i] ends. *)
Fixpoint ends (r : regex) (s : list ascii) (i : nat) : list nat :=
  match r with
  | Empty => [i]
  | Char c =>
      match s !! i with
      | Some d => if Ascii.eqb d c then [S i] else []
      | None => []
      end
  | AnyChar =>
      match s !! i with
      | Some d => if is_line_terminator d then [] else [S i]
      | None => []
      end
  | LineStart => if (i =? 0)%nat then [i] else []
  | LineEnd => if (i =? length s)%nat then [i] else []
  | Seq r1 r2 => flat_map (ends r2 s) (ends r1 s i)
  | Alt r1 r2 => ends r1 s i ++ ends r2 s i
  | Star r' => repeat_ends (ends r' s) (length s) i
  end.

(** The characters of the expression, folded. *)
Fixpoint fold_regex (r : regex) : regex :=
  match r with
  | Char c => Char (Canonicalize c)
  | Seq r1 r2 => Seq (fold_regex r1) (fold_regex r2)
  | Alt r1 r2 => Alt (fold_regex r1) (fold_regex r2)
  | Star r' => Star (fold_regex r')
  | _ => r
  end.

(** A match may start at any position of the subject. *)
Definition search (r : regex) (s : list ascii) : bool :=
  existsb (λ i, match ends r s i with [] => false | _ => true end)
          (seq 0 (S (length s))).

Definition regexp_test (c : compiled) (subject : string) : bool :=
  if ignoreCase c
  then search (fold_regex (source c)) (list_ascii_of_string (fold_case subject))
  else search (source c) (list_ascii_of_string subject).

#[global] Instance host : Host := {|
  StringToNumber := string_to_number;
  NumberToString := number_to_string;
  RegExp := compiled;
  RegExpCreate := regexp_create;
  RegExpTest := regexp_test;
|}.

End SmallHost.

(* ================================================================= *)
(** ** A small catalogue *)

(** Three records in the shape of the catalogue file (every field a
    string or [null]), two more whose fields are stored differently, and
    a store that holds them in one view. *)
Module Example.

Definition iss : record :=
  {[ "OBJECT_TYPE" := VStr "PAYLOAD"; "SATNAME" := VStr "ISS (ZARYA)";
     "COUNTRY" := VStr "ISS"; "DECAY" := VNull;
     "LAUNCH_YEAR" := VStr "1998"; "PERIGEE" := VStr "415";
     "APOGEE" := VStr "421"; "NORAD_CAT_ID" := VStr "25544" ]}.

Definition sl1 : record :=
  {[ "OBJECT_TYPE" := VStr "ROCKET BODY"; "SATNAME" := VStr "SL-1 R/B";
     "COUNTRY" := VStr "CIS"; "DECAY" := VStr "1957-12-01";
     "LAUNCH_YEAR" := VStr "1957"; "PERIGEE" := VStr "214";
     "APOGEE" := VStr "938"; "NORAD_CAT_ID" := VStr "1" ]}.

Definition starlink : record :=
  {[ "OBJECT_TYPE" := VStr "PAYLOAD"; "SATNAME" := VStr "Starlink-1007";
     "COUNTRY" := VStr "US"; "DECAY" := VNull;
     "LAUNCH_YEAR" := VStr "2019"; "PERIGEE" := VStr "547";
     "APOGEE" := VStr "549"; "NORAD_CAT_ID" := VStr "44713" ]}.

(** A fragment without orbital data: no DECAY field, no APOGEE field,
    a perigee and a launch year that are not numbers. *)
Definition fragment : record :=
  {[ "OBJECT_TYPE" := VStr "DEBRIS"; "SATNAME" := VStr "FENGYUN 2C DEB";
     "COUNTRY" := VStr "PRC"; "LAUNCH_YEAR" := VStr "unknown";
     "PERIGEE" := VStr "N/A"; "NORAD_CAT_ID" := VStr "40000" ]}.

(** The station again, its identifier stored as a number. *)
Definition numbered : record :=
  {[ "OBJECT_TYPE" := VStr "PAYLOAD"; "SATNAME" := VStr "ISS (ZARYA)";
     "NORAD_CAT_ID" := VNum (integer 25544) ]}.

Definition records : list record := [sl1; iss; fragment; starlink].

Definition view : loc := 1%positive.

Definition catalogue : store := {[ view := dense records ]}.

Definition numbered_catalogue : store := {[ view := dense [numbered] ]}.

End Example.

(* ================================================================= *)
(** ** Views with holes, chains of calls, families of methods *)

(** The elements of an array in the order of their indices, the holes
    left out. *)
Definition present (a : array) : list record :=
  omap (λ k, elements a !! k) (seq 0 (array_length a)).

(** [view.m1(...).m2(...)...]: each call runs on the view that the
    previous one returned. *)
Fixpoint chain `{Host} (calls : list filter_call) (this : loc) : M loc :=
  match calls with
  | [] => mret this
  | c :: calls' => next ← call c this; chain calls' next
  end.

(** The four methods whose arrow function is [array.includes(...)]. *)
Definition membership_filter (method : list value → filter_call) : Prop :=
  method = FilterByTypes ∨ method = FilterByCountryCodes ∨
  method = FilterByLaunchYears ∨ method = FilterByNoradIds.

(** Does the number zero pass the numeric filter? *)
Definition zero_passes `{Host} (c : filter_call) : Prop :=
  match c with
  | FilterByLaunchYears years => Array_includes years (VNum (Finite 0)) = true
  | FilterByLaunchYearRange startYear endYear =>
      Number_le startYear (Finite 0) = true ∧ Number_le (Finite 0) endYear = true
  | FilterByMaxPerigee maxPerigee => Number_le (Finite 0) maxPerigee = true
  | FilterByMinApogee minApogee => Number_le minApogee (Finite 0) = true
  | _ => False
  end.

(** [narrow] is the same bound filter as [wide] with bounds at least as
    tight. *)
Definition narrower (narrow wide : filter_call) : Prop :=
  match narrow, wide with
  | FilterByLaunchYearRange s' e', FilterByLaunchYearRange s e =>
      Number_le s s' = true ∧ Number_le e' e = true
  | FilterByMaxPerigee m', FilterByMaxPerigee m => Number_le m' m = true
  | FilterByMinApogee m', FilterByMinApogee m => Number_le m m' = true
  | _, _ => False
  end.

Definition is_number (v : value) : bool :=
  match v with VNum _ => true | _ => false end.

(** A view with two holes, and a record without a name. *)
Module Holes.

Definition anonymous : record :=
  {[ "OBJECT_TYPE" := VStr "TBA"; "DECAY" := VNull; "PERIGEE" := VNull;
     "NORAD_CAT_ID" := VNum (integer 270255) ]}.

Definition sparse : array :=
  Array {[ 0%nat := Example.iss; 2%nat := Example.sl1; 3%nat := anonymous ]} 5.

Definition sparse_catalogue : store := {[ Example.view := sparse ]}.

Definition anonymous_catalogue : store :=
  {[ Example.view := dense [Example.iss; anonymous] ]}.

End Holes.

Local Open Scope list_scope.

(* ================================================================= *)
(** ** The store: allocation and the filter loop *)

Lemma fresh_unused (σ : store) : σ !! fresh (dom σ) = None.
Proof. apply not_elem_of_dom, is_fresh. Qed.

Lemma dense_nil : Array ∅ 0 = dense [].
Proof. reflexivity. Qed.

Lemma dense_snoc (xs : list record) (x : record) :
  Array (<[length xs := x]> (map_seq 0 xs)) (length xs `max` S (length xs))
  = dense (xs ++ [x]).
Proof.
  unfold dense. rewrite map_seq_snoc, length_app. simpl.
  f_equal. lia.
Qed.

Lemma dense_lookup (xs : list record) (k : nat) :
  elements (dense xs) !! k = xs !! k.
Proof. simpl. apply lookup_map_seq_0. Qed.

Lemma dense_inj (xs ys : list record) : dense xs = dense ys → xs = ys.
Proof.
  intros Heq. apply list_eq. intros k.
  rewrite <- !dense_lookup. by rewrite Heq.
Qed.

Lemma CreateDataProperty_dense (A : loc) (acc : list record) (x : record) (σ : store) :
  σ !! A = Some (dense acc) →
  CreateDataProperty A (length acc) x σ
  = (Normal (), <[A := dense (acc ++ [x])]> σ).
Proof.
  intros HA. unfold CreateDataProperty, mbind, M_bind, read, write.
  rewrite HA. simpl. by rewrite dense_snoc.
Qed.

Lemma filter_loop_dense (callbackfn : record → bool) (O A : loc) (xs : list record) :
  O ≠ A →
  ∀ (n k : nat) (acc : list record) (σ : store),
    σ !! O = Some (dense xs) →
    σ !! A = Some (dense acc) →
    (k + n ≤ length xs)%nat →
    filter_loop callbackfn O A k (length acc) n σ
    = (Normal (),
       <[A := dense (acc ++ List.filter callbackfn (take n (drop k xs)))]> σ).
Proof.
  intros Hne. induction n as [|n IH]; intros k acc σ HO HA Hk.
  - simpl. rewrite app_nil_r, insert_id by done. reflexivity.
  - assert (is_Some (xs !! k)) as [x Hx] by (apply lookup_lt_is_Some; lia).
    assert (take (S n) (drop k xs) = x :: take n (drop (S k) xs)) as ->.
    { rewrite (drop_S _ _ _ Hx). reflexivity. }
    cbn [filter_loop]. unfold mbind at 1, M_bind at 1, read at 1.
    rewrite HO, dense_lookup, Hx. cbn [List.filter].
    destruct (callbackfn x).
    + unfold mbind at 1, M_bind at 1.
      rewrite (CreateDataProperty_dense _ _ _ _ HA).
      replace (S (length acc)) with (length (acc ++ [x]))
        by (rewrite length_app; simpl; lia).
      rewrite IH.
      * rewrite insert_insert_eq, <- app_assoc. reflexivity.
      * by rewrite lookup_insert_ne.
      * by rewrite lookup_insert_eq.
      * lia.
    + apply IH; [done | done | lia].
Qed.

(** [filter] on a dense array: the result is a new dense array, at a
    location that the store did not use, and nothing else changes. *)
Lemma Array_filter_dense (callbackfn : record → bool) (this : loc)
    (xs : list record) (σ : store) :
  σ !! this = Some (dense xs) →
  Array_filter callbackfn this σ
  = (Normal (fresh (dom σ)),
     <[fresh (dom σ) := dense (List.filter callbackfn xs)]> σ).
Proof.
  intros Hthis. pose proof (fresh_unused σ) as Hfresh.
  assert (this ≠ fresh (dom σ)) as Hne by congruence.
  unfold Array_filter, mbind at 1, M_bind at 1, read at 1. rewrite Hthis.
  unfold mbind at 1, M_bind at 1, SatCat_constructor, mbind at 1, M_bind at 1, alloc.
  cbn [mret M_ret]. unfold mbind at 1, M_bind at 1.
  rewrite dense_nil.
  rewrite (filter_loop_dense callbackfn this _ xs Hne (length xs) 0 []).
  - simpl. rewrite insert_insert_eq, firstn_all. reflexivity.
  - by rewrite lookup_insert_ne.
  - by rewrite lookup_insert_eq.
  - simpl. lia.
Qed.

(** The constructor on an array of records: the new view holds the
    records in their order. *)
Lemma constructor_loop_dense (this : loc) (data acc : list record) (σ : store) :
  σ !! this = Some (dense acc) →
  constructor_loop this data σ = (Normal (), <[this := dense (acc ++ data)]> σ).
Proof.
  revert acc σ. induction data as [|x data IH]; intros acc σ Hthis.
  - simpl. rewrite app_nil_r, insert_id by done. reflexivity.
  - cbn [constructor_loop]. unfold mbind at 1, M_bind at 1.
    unfold Array_push, mbind at 1, M_bind at 1, read, write. rewrite Hthis.
    cbn [elements array_length dense].
    replace (S (length acc)) with (length acc `max` S (length acc)) by lia.
    rewrite dense_snoc, (IH (acc ++ [x])) by (by rewrite lookup_insert_eq).
    rewrite insert_insert_eq, <- app_assoc. reflexivity.
Qed.

Lemma SatCat_constructor_dense (data : list record) (σ : store) :
  SatCat_constructor (DataArray data) σ
  = (Normal (fresh (dom σ)), <[fresh (dom σ) := dense data]> σ).
Proof.
  unfold SatCat_constructor, mbind at 1, M_bind at 1, alloc.
  unfold mbind at 1, M_bind at 1. rewrite dense_nil.
  rewrite (constructor_loop_dense _ data []) by (by rewrite lookup_insert_eq).
  rewrite insert_insert_eq. reflexivity.
Qed.

(* ================================================================= *)
(** ** Lists *)

Lemma filter_elem_of {A} (P : A → bool) (xs : list A) (x : A) :
  x ∈ List.filter P xs ↔ x ∈ xs ∧ P x = true.
Proof. rewrite !list_elem_of_In. apply filter_In. Qed.

Lemma filter_sublist {A} (P : A → bool) (xs : list A) :
  sublist (List.filter P xs) xs.
Proof.
  induction xs as [|x xs IH]; simpl; [constructor|].
  destruct (P x); by constructor.
Qed.

Lemma filter_idempotent {A} (P : A → bool) (xs : list A) :
  List.filter P (List.filter P xs) = List.filter P xs.
Proof.
  induction xs as [|x xs IH]; simpl; [done|].
  destruct (P x) eqn:HP; simpl; [rewrite HP; by f_equal | done].
Qed.

Lemma filter_commute {A} (P Q : A → bool) (xs : list A) :
  List.filter P (List.filter Q xs) = List.filter Q (List.filter P xs).
Proof.
  induction xs as [|x xs IH]; simpl; [done|].
  destruct (P x) eqn:HP, (Q x) eqn:HQ; simpl; rewrite ?HP, ?HQ, IH; done.
Qed.

Lemma filter_ext_elem_of {A} (P Q : A → bool) (xs : list A) :
  (∀ x, x ∈ xs → P x = Q x) → List.filter P xs = List.filter Q xs.
Proof.
  intros Heq. apply filter_ext_in. intros x Hx. apply Heq.
  by apply list_elem_of_In.
Qed.

(* ================================================================= *)
(** ** Numbers *)

Lemma Number_ge_le (x y : number) : Number_ge x y = Number_le y x.
Proof. reflexivity. Qed.

Lemma Number_le_NaN_l (y : number) : Number_le NaN y = false.
Proof. by destruct y. Qed.

Lemma Number_le_NaN_r (x : number) : Number_le x NaN = false.
Proof. by destruct x. Qed.

Lemma Number_equal_not_NaN (x y : number) :
  Number_equal x y = true → x ≠ NaN ∧ y ≠ NaN.
Proof. by destruct x, y. Qed.

Lemma Qle_bool_proper (p p' q q' : Q) :
  Qeq_bool p p' = true → Qeq_bool q q' = true → Qle_bool p q = Qle_bool p' q'.
Proof.
  intros Hp%Qeq_bool_iff Hq%Qeq_bool_iff.
  apply eq_true_iff_eq. rewrite !Qle_bool_iff, Hp, Hq. reflexivity.
Qed.

(** Equal numbers compare alike. *)
Lemma Number_le_equal_l (x x' y : number) :
  Number_equal x x' = true → Number_le x y = Number_le x' y.
Proof.
  destruct x as [|p| |], x' as [|p'| |], y as [|q| |]; try done.
  unfold Number_le; simpl. intros Hp. f_equal.
  rewrite (Qle_bool_proper p p' q q); [done | done | apply Qeq_bool_refl].
Qed.

Lemma Number_le_equal_r (x y y' : number) :
  Number_equal y y' = true → Number_le x y = Number_le x y'.
Proof.
  destruct x as [|p| |], y as [|q| |], y' as [|q'| |]; try done.
  unfold Number_le; simpl. intros Hq. f_equal.
  rewrite (Qle_bool_proper p p q q'); [done | apply Qeq_bool_refl | done].
Qed.

Lemma Number_le_refl (x : number) : x ≠ NaN → Number_le x x = true.
Proof.
  destruct x as [|p| |]; try done. intros _.
  unfold Number_le; simpl. by rewrite (proj2 (Qle_bool_iff p p) (Qle_refl p)).
Qed.

Lemma Number_equal_le (x y : number) :
  Number_equal x y = true → Number_le x y = true ∧ Number_le y x = true.
Proof.
  intros Heq. destruct (Number_equal_not_NaN _ _ Heq) as [Hx Hy]. split.
  - rewrite (Number_le_equal_l _ _ _ Heq). by apply Number_le_refl.
  - rewrite (Number_le_equal_r _ _ _ Heq). by apply Number_le_refl.
Qed.

Lemma Number_le_integer (a b : Z) :
  Number_le (integer a) (integer b) = bool_decide (a ≤ b)%Z.
Proof.
  unfold Number_le, integer; simpl.
  destruct (Qle_bool (inject_Z a) (inject_Z b)) eqn:Hle; simpl; symmetry.
  - apply bool_decide_eq_true. rewrite Zle_Qle. by apply Qle_bool_iff.
  - apply bool_decide_eq_false. rewrite Zle_Qle, <- Qle_bool_iff. congruence.
Qed.

Lemma Number_sameValueZero_integer (a b : Z) :
  Number_sameValueZero (integer a) (integer b) = bool_decide (a = b).
Proof.
  unfold integer; simpl. apply eq_true_iff_eq.
  rewrite Qeq_bool_iff, bool_decide_eq_true. split.
  - apply inject_Z_injective.
  - by intros ->.
Qed.

Lemma Number_sameValueZero_equal_r (x y y' : number) :
  Number_equal y y' = true →
  Number_sameValueZero x y = Number_sameValueZero x y'.
Proof.
  destruct x as [|p| |], y as [|q| |], y' as [|q'| |]; try done.
  simpl. intros Hq%Qeq_bool_iff. apply eq_true_iff_eq.
  rewrite !Qeq_bool_iff, Hq. reflexivity.
Qed.

Lemma Array_includes_true (array : list value) (v : value) :
  Array_includes array v = true ↔ ∃ x, x ∈ array ∧ SameValueZero x v = true.
Proof.
  induction array as [|y array IH]; simpl.
  - split; [done | intros (x & Hx & _); by apply elem_of_nil in Hx].
  - destruct (SameValueZero y v) eqn:Hy.
    + split; [|done]. intros _. exists y. split; [left | done].
    + rewrite IH. split.
      * intros (x & Hx & Hxv). exists x. split; [by right | done].
      * intros (x & Hx & Hxv). apply elem_of_cons in Hx as [->|Hx];
          [congruence | by exists x].
Qed.

Lemma Array_includes_strings (ids : list string) (v : value) :
  Array_includes (VStr <$> ids) v = true ↔ ∃ s, v = VStr s ∧ s ∈ ids.
Proof.
  rewrite Array_includes_true. split.
  - intros (x & (s & -> & Hs)%list_elem_of_fmap & Hv).
    destruct v; try done. simpl in Hv. apply String.eqb_eq in Hv as <-.
    by exists s.
  - intros (s & -> & Hs). exists (VStr s). split.
    + apply list_elem_of_fmap. by exists s.
    + simpl. apply String.eqb_refl.
Qed.

Lemma Array_includes_integers (first last z : Z) :
  Array_includes (integers_from_to first last) (VNum (integer z))
  = bool_decide (first ≤ z ∧ z ≤ last)%Z.
Proof.
  apply eq_true_iff_eq. rewrite Array_includes_true, bool_decide_eq_true.
  unfold integers_from_to. split.
  - intros (x & (z' & -> & Hz')%list_elem_of_fmap & Hv).
    cbn [SameValueZero] in Hv.
    rewrite Number_sameValueZero_integer, bool_decide_eq_true in Hv. subst z'.
    apply elem_of_seqZ in Hz'. lia.
  - intros Hz. exists (VNum (integer z)). split.
    + apply list_elem_of_fmap. exists z. split; [done|].
      apply elem_of_seqZ. lia.
    + cbn [SameValueZero].
      by rewrite Number_sameValueZero_integer, bool_decide_eq_true.
Qed.

(* ================================================================= *)
(** ** The methods on a view *)

Section Methods.
Context {host : Host}.

(** A call runs [filter] with its arrow function, once the pattern, if
    there is one, has compiled. *)
Lemma call_predicate (c : filter_call) (this : loc) (σ : store) :
  call c this σ
  = match predicate c with
    | Some P => Array_filter P this σ
    | None => (Throw SyntaxError, σ)
    end.
Proof.
  destruct c; try reflexivity; simpl;
    unfold filterByNamePattern, filterByNoradIdPattern, RegExp_new,
      mbind at 1, M_bind at 1;
    by destruct (RegExpCreate pattern "i").
Qed.

Lemma call_dense (c : filter_call) (this : loc) (xs : list record) (σ : store) :
  σ !! this = Some (dense xs) →
  call c this σ
  = match predicate c with
    | Some P => (Normal (fresh (dom σ)),
                 <[fresh (dom σ) := dense (List.filter P xs)]> σ)
    | None => (Throw SyntaxError, σ)
    end.
Proof.
  intros Hthis. rewrite call_predicate.
  destruct (predicate c); [by apply Array_filter_dense | done].
Qed.

(** C1.  A call of a filter method on a view returns a new view: an
    array at a location that the store did not use, holding exactly
    the records of the receiver that satisfy the predicate of the
    call, in their order (a subsequence, so not longer than the
    receiver); the store is otherwise as before, and in particular the
    receiver is unchanged.  The only call that does not return is a
    pattern filter whose pattern does not compile. *)
Theorem filter_call_returns_new_subsequence
    (c : filter_call) (this : loc) (xs : list record) (σ : store) :
  σ !! this = Some (dense xs) →
  match predicate c with
  | Some P =>
      ∃ (new : loc) (ys : list record),
        call c this σ = (Normal new, <[new := dense ys]> σ) ∧
        σ !! new = None ∧
        (<[new := dense ys]> σ) !! this = Some (dense xs) ∧
        ys = List.filter P xs ∧
        (∀ sat, sat ∈ ys ↔ sat ∈ xs ∧ P sat = true) ∧
        sublist ys xs ∧
        (length ys ≤ length xs)%nat
  | None => call c this σ = (Throw SyntaxError, σ)
  end.
Proof.
  intros Hthis. rewrite (call_dense c this xs σ Hthis).
  destruct (predicate c) as [P|]; [|done].
  pose proof (fresh_unused σ) as Hnew.
  exists (fresh (dom σ)), (List.filter P xs).
  split_and!.
  - done.
  - done.
  - rewrite lookup_insert_ne; [done | congruence].
  - done.
  - intros sat. apply filter_elem_of.
  - apply filter_sublist.
  - apply sublist_length, filter_sublist.
Qed.

(** C2 (as amended).  [filterByNoradIds] with identifiers given as
    strings keeps exactly the records whose NORAD_CAT_ID is itself a
    string and is one of the identifiers: membership is tested without
    coercion, so a record whose NORAD_CAT_ID is stored as a number is
    not kept. *)
Theorem filterByNoradIds_keeps_string_members
    (ids : list string) (this : loc) (xs : list record) (σ : store) :
  σ !! this = Some (dense xs) →
  ∃ (new : loc) (ys : list record),
    filterByNoradIds (VStr <$> ids) this σ = (Normal new, <[new := dense ys]> σ) ∧
    ys = List.filter (λ sat, Array_includes (VStr <$> ids) (Get sat "NORAD_CAT_ID")) xs ∧
    (∀ sat, sat ∈ ys ↔
            sat ∈ xs ∧ ∃ s, Get sat "NORAD_CAT_ID" = VStr s ∧ s ∈ ids) ∧
    (∀ sat n, Get sat "NORAD_CAT_ID" = VNum n → sat ∉ ys).
Proof.
  intros Hthis. eexists _, _. split_and!.
  - by apply Array_filter_dense.
  - done.
  - intros sat. by rewrite filter_elem_of, Array_includes_strings.
  - intros sat n Hn. rewrite filter_elem_of, Array_includes_strings, Hn.
    by intros (_ & s & ? & _).
Qed.

(** C3.  The class has no method [filterByInclinationRange], own or
    inherited: the call of that name raises [TypeError] and leaves the
    store as it is, whatever the arguments and the view. *)
Theorem filterByInclinationRange_is_not_a_method
    (arguments : list argument) (this : loc) (σ : store) :
  HasProperty "filterByInclinationRange" = false ∧
  (∀ c, method_name c ≠ "filterByInclinationRange") ∧
  ∃ run, send "filterByInclinationRange" arguments this = Some run ∧
         run σ = (Throw TypeError, σ).
Proof.
  split_and!.
  - by vm_compute.
  - by intros [].
  - by eexists.
Qed.

Lemma absent_or_non_numeric_NaN (sat : record) (key : string) :
  absent_or_non_numeric sat key → ToNumber (Get sat key) = NaN.
Proof. unfold Get. by intros [-> | (s & -> & Hs)]. Qed.

(** C4.  A numeric filter (by launch years, the years being numbers
    other than [NaN]; by range of launch years; by maximal perigee; by
    minimal apogee) returns normally, and a record whose field is
    absent or is a string that does not coerce to a number is not in
    the result. *)
Theorem numeric_filter_excludes_non_numeric
    (c : filter_call) (key : string) (sat : record)
    (this : loc) (xs : list record) (σ : store) :
  numeric_field c = Some key →
  years_exclude_NaN c →
  absent_or_non_numeric sat key →
  σ !! this = Some (dense xs) →
  ∃ (new : loc) (ys : list record),
    call c this σ = (Normal new, <[new := dense ys]> σ) ∧ sat ∉ ys.
Proof.
  intros Hkey Hyears HNaN%absent_or_non_numeric_NaN Hthis.
  rewrite (call_dense c this xs σ Hthis).
  destruct c; try done; simpl in *; simplify_eq;
    eexists _, _; (split; [done|]);
    rewrite filter_elem_of, HNaN; intros [_ Hsat].
  - congruence.
  - by rewrite Number_ge_le, Number_le_NaN_r in Hsat.
  - by rewrite Number_le_NaN_l in Hsat.
  - by rewrite Number_ge_le, Number_le_NaN_r in Hsat.
Qed.

(** C5.  A pattern filter compiles its pattern with the flag [i]
    before it looks at the view.  When the pattern is not valid syntax
    the call raises [SyntaxError] at once: no view is made and the
    store, so the receiver, is as before.  When it is valid, a record
    is kept exactly when the expression matches its field, and then
    also any spelling of the field in another case. *)
Theorem pattern_filters_compile_then_ignore_case
    (pattern : string) (this : loc) (xs : list record) (σ : store) :
  IgnoreCase host →
  σ !! this = Some (dense xs) →
  match RegExpCreate pattern "i" with
  | None =>
      filterByNamePattern pattern this σ = (Throw SyntaxError, σ) ∧
      filterByNoradIdPattern pattern this σ = (Throw SyntaxError, σ)
  | Some regex =>
      ∃ (new : loc) (by_name by_id : list record),
        filterByNamePattern pattern this σ
        = (Normal new, <[new := dense by_name]> σ) ∧
        filterByNoradIdPattern pattern this σ
        = (Normal new, <[new := dense by_id]> σ) ∧
        (∀ sat s, fold_case s = fold_case (ToString (Get sat "SATNAME")) →
                  sat ∈ by_name ↔ sat ∈ xs ∧ RegExpTest regex s = true) ∧
        (∀ sat s, fold_case s = fold_case (ToString (Get sat "NORAD_CAT_ID")) →
                  sat ∈ by_id ↔ sat ∈ xs ∧ RegExpTest regex s = true)
  end.
Proof.
  intros Hi Hthis.
  pose proof (call_dense (FilterByNamePattern pattern) this xs σ Hthis) as Hname.
  pose proof (call_dense (FilterByNoradIdPattern pattern) this xs σ Hthis) as Hid.
  simpl in Hname, Hid.
  destruct (RegExpCreate pattern "i") as [regex|] eqn:Hregex; [|done].
  simpl in Hname, Hid. eexists _, _, _. split_and!; [done | done | |].
  - intros sat s Hs. by rewrite filter_elem_of, (Hi _ _ _ _ Hregex Hs).
  - intros sat s Hs. by rewrite filter_elem_of, (Hi _ _ _ _ Hregex Hs).
Qed.

(** C6.  The range filters are inclusive: a record of the view whose
    field is equal to the bound of [filterByMaxPerigee] or of
    [filterByMinApogee], or to one of the two bounds of a non-empty
    [filterByLaunchYearRange], is in the result. *)
Theorem range_filter_includes_bound
    (c : filter_call) (sat : record)
    (this : loc) (xs : list record) (σ : store) :
  on_bound c sat →
  sat ∈ xs →
  σ !! this = Some (dense xs) →
  ∃ (new : loc) (ys : list record),
    call c this σ = (Normal new, <[new := dense ys]> σ) ∧ sat ∈ ys.
Proof.
  intros Hbound Hsat Hthis. rewrite (call_dense c this xs σ Hthis).
  destruct c; try done; simpl in *;
    eexists _, _; (split; [done|]); apply filter_elem_of; (split; [done|]).
  - destruct Hbound as [Hrange [Heq | Heq]];
      pose proof (Number_equal_le _ _ Heq) as [Hle Hge];
      apply andb_true_iff; rewrite Number_ge_le; split; try done.
    + rewrite (Number_le_equal_l _ _ endYear Heq). exact Hrange.
    + rewrite (Number_le_equal_r startYear _ _ Heq). exact Hrange.
  - apply (Number_equal_le _ _ Hbound).
  - rewrite Number_ge_le. apply (Number_equal_le _ _ Hbound).
Qed.

(** C7.  Idempotence.  A filter applied to its own result, with the
    same arguments, returns a view with the same records (so of the
    same length) as the first application. *)
Theorem filter_twice_is_filter_once
    (c : filter_call) (this : loc) (xs : list record) (σ : store) :
  σ !! this = Some (dense xs) →
  match predicate c with
  | Some P =>
      ∃ (once twice : loc) (σ1 σ2 : store) (ys : list record),
        call c this σ = (Normal once, σ1) ∧
        call c once σ1 = (Normal twice, σ2) ∧
        σ1 !! once = Some (dense ys) ∧
        σ2 !! twice = Some (dense ys) ∧
        ys = List.filter P xs
  | None => call c this σ = (Throw SyntaxError, σ)
  end.
Proof.
  intros Hthis. pose proof (call_dense c this xs σ Hthis) as Hfirst.
  destruct (predicate c) as [P|] eqn:HP; [|done].
  eexists _, _, _, _, _. split; [done|]. split.
  - rewrite (call_dense c _ (List.filter P xs)) by (by rewrite lookup_insert_eq).
    by rewrite HP.
  - rewrite filter_idempotent, !lookup_insert_eq. done.
Qed.

(** C8.  Commutativity.  Two filters applied one after the other, in
    either order, both return, and the two final views hold the same
    records (so have the same length). *)
Theorem filters_commute
    (c1 c2 : filter_call) (P1 P2 : record → bool)
    (this : loc) (xs : list record) (σ : store) :
  predicate c1 = Some P1 →
  predicate c2 = Some P2 →
  σ !! this = Some (dense xs) →
  ∃ (v1 v12 v2 v21 : loc) (σ1 σ12 σ2 σ21 : store) (ys : list record),
    call c1 this σ = (Normal v1, σ1) ∧
    call c2 v1 σ1 = (Normal v12, σ12) ∧
    call c2 this σ = (Normal v2, σ2) ∧
    call c1 v2 σ2 = (Normal v21, σ21) ∧
    σ12 !! v12 = Some (dense ys) ∧
    σ21 !! v21 = Some (dense ys) ∧
    ys = List.filter P2 (List.filter P1 xs).
Proof.
  intros HP1 HP2 Hthis.
  pose proof (call_dense c1 this xs σ Hthis) as H1.
  pose proof (call_dense c2 this xs σ Hthis) as H2.
  rewrite HP1 in H1. rewrite HP2 in H2.
  eexists _, _, _, _, _, _, _, _, _. split_and!; [done | | done | | | | done].
  - rewrite (call_dense c2 _ (List.filter P1 xs)) by (by rewrite lookup_insert_eq).
    by rewrite HP2.
  - rewrite (call_dense c1 _ (List.filter P2 xs)) by (by rewrite lookup_insert_eq).
    by rewrite HP1.
  - by rewrite lookup_insert_eq.
  - by rewrite lookup_insert_eq, filter_commute.
Qed.

(** C9.  On a view in which every LAUNCH_YEAR coerces to an integer,
    [filterByLaunchYearRange(first, last)] returns what
    [filterByLaunchYears] returns for the array of all the integers
    from [first] to [last]: the same records in the same order. *)
Theorem launch_year_range_is_launch_years
    (first last : Z) (this : loc) (xs : list record) (σ : store) :
  (first ≤ last)%Z →
  (∀ sat, sat ∈ xs →
          ∃ z, Number_equal (ToNumber (Get sat "LAUNCH_YEAR")) (integer z) = true) →
  σ !! this = Some (dense xs) →
  ∃ (new : loc) (ys : list record),
    filterByLaunchYearRange (integer first) (integer last) this σ
    = (Normal new, <[new := dense ys]> σ) ∧
    filterByLaunchYears (integers_from_to first last) this σ
    = (Normal new, <[new := dense ys]> σ).
Proof.
  intros _ Hint Hthis. eexists _, _. split.
  - by apply Array_filter_dense.
  - unfold filterByLaunchYears. rewrite (Array_filter_dense _ _ _ _ Hthis).
    do 2 f_equal. f_equal. apply filter_ext_elem_of.
    intros sat [z Hz]%Hint. cbv zeta. symmetry.
    rewrite Number_ge_le, (Number_le_equal_r _ _ _ Hz), (Number_le_equal_l _ _ _ Hz).
    rewrite !Number_le_integer.
    transitivity (Array_includes (integers_from_to first last) (VNum (integer z))).
    + rewrite Array_includes_integers.
      apply eq_true_iff_eq.
      rewrite andb_true_iff, !bool_decide_eq_true. reflexivity.
    + apply eq_true_iff_eq. rewrite !Array_includes_true.
      split; intros (x & Hx & Hv); exists x; (split; [done|]);
        destruct x; try done; simpl in *;
        by rewrite ?(Number_sameValueZero_equal_r _ _ _ Hz) in *.
Qed.

Lemma on_orbit_iff (sat : record) :
  IsStrictlyEqual (Get sat "DECAY") VNull = true ↔ sat !! "DECAY" = Some VNull.
Proof.
  unfold Get. destruct (sat !! "DECAY") as [[]|]; simpl; split; congruence.
Qed.

(** C10.  [filterByStillOnOrbit] keeps exactly the records whose DECAY
    field is present and is [null]; a record without a DECAY field is
    not kept. *)
Theorem filterByStillOnOrbit_keeps_null_decay
    (this : loc) (xs : list record) (σ : store) :
  σ !! this = Some (dense xs) →
  ∃ (new : loc) (ys : list record),
    filterByStillOnOrbit this σ = (Normal new, <[new := dense ys]> σ) ∧
    sublist ys xs ∧
    (∀ sat, sat ∈ ys ↔ sat ∈ xs ∧ sat !! "DECAY" = Some VNull) ∧
    (∀ sat, sat !! "DECAY" = None → sat ∉ ys).
Proof.
  intros Hthis. eexists _, _. split_and!.
  - by apply Array_filter_dense.
  - apply filter_sublist.
  - intros sat. by rewrite filter_elem_of, on_orbit_iff.
  - intros sat Hsat. rewrite filter_elem_of, on_orbit_iff, Hsat. by intros [_ ?].
Qed.
End Methods.

(* ================================================================= *)
(** ** The small host and the catalogue *)

Lemma SmallHost_ignore_case : IgnoreCase SmallHost.host.
Proof.
  intros pattern regex s1 s2 Hregex Hfold. simpl in *.
  unfold SmallHost.regexp_create in Hregex.
  destruct (SmallHost.parse _ _ _) as [r|]; [|done].
  simpl in Hregex. injection Hregex as <-.
  unfold SmallHost.regexp_test. simpl. by rewrite Hfold.
Qed.

Import Example.

(** The constructor on the four records gives the view of the
    catalogue. *)
Example catalogue_constructed :
  SatCat_constructor (DataArray records) ∅ = (Normal view, catalogue).
Proof. rewrite SatCat_constructor_dense. reflexivity. Qed.

(** The test of the repository for [filterByNoradIds], on the
    catalogue. *)
Example filterByNoradIds_test :
  filterByNoradIds [VStr "25544"; VStr "40000"] view catalogue
  = (Normal 2%positive, <[2%positive := dense [iss; fragment]]> catalogue).
Proof. vm_compute. reflexivity. Qed.

Example filterByNamePattern_starlink :
  filterByNamePattern "STARLINK" view catalogue
  = (Normal 2%positive, <[2%positive := dense [starlink]]> catalogue).
Proof. vm_compute. reflexivity. Qed.

(** A perigee that is [null] coerces to zero: such a record passes
    [filterByMaxPerigee] (the field is present, and not a string). *)
Example null_perigee_is_zero :
  filterByMaxPerigee (integer 500) view {[ view := dense [ {[ "PERIGEE" := VNull ]} ] ]}
  = (Normal 2%positive,
     <[2%positive := dense [ {[ "PERIGEE" := VNull ]} ]]>
       {[ view := dense [ {[ "PERIGEE" := VNull ]} ] ]}).
Proof. vm_compute. reflexivity. Qed.

(** On the catalogue, for [filterByNamePattern('^starlink')]. *)
Lemma filter_call_returns_new_subsequence_witness :
  let c := FilterByNamePattern "^starlink" in
  catalogue !! view = Some (dense records) ∧
  match predicate c with
  | Some P =>
      ∃ (new : loc) (ys : list record),
        call c view catalogue = (Normal new, <[new := dense ys]> catalogue) ∧
        catalogue !! new = None ∧
        (<[new := dense ys]> catalogue) !! view = Some (dense records) ∧
        ys = List.filter P records ∧
        (∀ sat, sat ∈ ys ↔ sat ∈ records ∧ P sat = true) ∧
        sublist ys records ∧
        (length ys ≤ length records)%nat
  | None => call c view catalogue = (Throw SyntaxError, catalogue)
  end.
Proof.
  split; [reflexivity|].
  apply (filter_call_returns_new_subsequence
           (FilterByNamePattern "^starlink") view records catalogue).
  reflexivity.
Defined.

(** C2, the claim as stated fails.  The identifier of the record is the
    number 25544, whose string form is ["25544"], a member of the
    identifiers asked for: the claim keeps the record.  The method
    returns the empty view. *)
Lemma filterByNoradIds_drops_number_id :
  noradId_in_ids_as_string ["25544"] numbered = true ∧
  filterByNoradIds (VStr <$> ["25544"]) view numbered_catalogue
  = (Normal 2%positive, <[2%positive := dense []]> numbered_catalogue).
Proof. split; vm_compute; reflexivity. Qed.

(** On the catalogue, for the identifiers of the repository's test. *)
Lemma filterByNoradIds_keeps_string_members_witness :
  catalogue !! view = Some (dense records) ∧
  ∃ (new : loc) (ys : list record),
    filterByNoradIds (VStr <$> ["25544"; "40000"]) view catalogue
    = (Normal new, <[new := dense ys]> catalogue) ∧
    ys = List.filter
           (λ sat, Array_includes (VStr <$> ["25544"; "40000"]) (Get sat "NORAD_CAT_ID"))
           records ∧
    (∀ sat, sat ∈ ys ↔
            sat ∈ records ∧
            ∃ s, Get sat "NORAD_CAT_ID" = VStr s ∧ s ∈ ["25544"; "40000"]) ∧
    (∀ sat n, Get sat "NORAD_CAT_ID" = VNum n → sat ∉ ys).
Proof.
  split; [reflexivity|].
  apply (filterByNoradIds_keeps_string_members
           ["25544"; "40000"] view records catalogue).
  reflexivity.
Defined.

(** The call of the repository's test on the catalogue. *)
Example filterByInclinationRange_test :
  ∃ run, send "filterByInclinationRange"
              [Arg (VNum (integer 0)); Arg (VNum (integer 10))] view = Some run ∧
         run catalogue = (Throw TypeError, catalogue).
Proof. by eexists. Qed.

(** On the catalogue: the fragment, whose launch year is the string
    ["unknown"], is not in the result of [filterByLaunchYears]. *)
Lemma numeric_filter_excludes_non_numeric_witness :
  let c := FilterByLaunchYears [VNum (integer 2004); VNum (integer 2019)] in
  numeric_field c = Some "LAUNCH_YEAR" ∧
  years_exclude_NaN c ∧
  absent_or_non_numeric fragment "LAUNCH_YEAR" ∧
  catalogue !! view = Some (dense records) ∧
  ∃ (new : loc) (ys : list record),
    call c view catalogue = (Normal new, <[new := dense ys]> catalogue) ∧
    fragment ∉ ys.
Proof.
  assert (absent_or_non_numeric fragment "LAUNCH_YEAR") as Hfield.
  { right. exists "unknown". split; reflexivity. }
  split_and!; [reflexivity | reflexivity | exact Hfield | reflexivity |].
  apply (numeric_filter_excludes_non_numeric
           (FilterByLaunchYears [VNum (integer 2004); VNum (integer 2019)])
           "LAUNCH_YEAR" fragment view records catalogue);
    [reflexivity | reflexivity | exact Hfield | reflexivity].
Defined.

(** On the catalogue and the small host: a pattern with an open group,
    and a pattern in lower case. *)
Lemma pattern_filters_compile_then_ignore_case_witness :
  IgnoreCase SmallHost.host ∧
  catalogue !! view = Some (dense records) ∧
  (filterByNamePattern "STARLINK(" view catalogue = (Throw SyntaxError, catalogue) ∧
   filterByNoradIdPattern "STARLINK(" view catalogue = (Throw SyntaxError, catalogue)) ∧
  match RegExpCreate "starlink" "i" with
  | None =>
      filterByNamePattern "starlink" view catalogue = (Throw SyntaxError, catalogue) ∧
      filterByNoradIdPattern "starlink" view catalogue = (Throw SyntaxError, catalogue)
  | Some regex =>
      ∃ (new : loc) (by_name by_id : list record),
        filterByNamePattern "starlink" view catalogue
        = (Normal new, <[new := dense by_name]> catalogue) ∧
        filterByNoradIdPattern "starlink" view catalogue
        = (Normal new, <[new := dense by_id]> catalogue) ∧
        (∀ sat s, fold_case s = fold_case (ToString (Get sat "SATNAME")) →
                  sat ∈ by_name ↔ sat ∈ records ∧ RegExpTest regex s = true) ∧
        (∀ sat s, fold_case s = fold_case (ToString (Get sat "NORAD_CAT_ID")) →
                  sat ∈ by_id ↔ sat ∈ records ∧ RegExpTest regex s = true)
  end.
Proof.
  split; [exact SmallHost_ignore_case|]. split; [reflexivity|]. split.
  - apply (pattern_filters_compile_then_ignore_case
             "STARLINK(" view records catalogue SmallHost_ignore_case).
    reflexivity.
  - apply (pattern_filters_compile_then_ignore_case
             "starlink" view records catalogue SmallHost_ignore_case).
    reflexivity.
Defined.

(** On the catalogue: the satellite launched in 2019 is in the range
    from 1998 to 2019. *)
Lemma range_filter_includes_bound_witness :
  let c := FilterByLaunchYearRange (integer 1998) (integer 2019) in
  on_bound c starlink ∧
  starlink ∈ records ∧
  catalogue !! view = Some (dense records) ∧
  ∃ (new : loc) (ys : list record),
    call c view catalogue = (Normal new, <[new := dense ys]> catalogue) ∧
    starlink ∈ ys.
Proof.
  assert (on_bound (FilterByLaunchYearRange (integer 1998) (integer 2019)) starlink)
    as Hbound.
  { split; [reflexivity | right; reflexivity]. }
  assert (starlink ∈ records) as Hin.
  { do 3 right. left. }
  split_and!; [exact Hbound | exact Hin | reflexivity |].
  apply (range_filter_includes_bound
           (FilterByLaunchYearRange (integer 1998) (integer 2019)) starlink
           view records catalogue Hbound Hin).
  reflexivity.
Defined.

(** On the catalogue, for [filterByCountryCodes]. *)
Lemma filter_twice_is_filter_once_witness :
  let c := FilterByCountryCodes [VStr "US"; VStr "ISS"] in
  catalogue !! view = Some (dense records) ∧
  match predicate c with
  | Some P =>
      ∃ (once twice : loc) (σ1 σ2 : store) (ys : list record),
        call c view catalogue = (Normal once, σ1) ∧
        call c once σ1 = (Normal twice, σ2) ∧
        σ1 !! once = Some (dense ys) ∧
        σ2 !! twice = Some (dense ys) ∧
        ys = List.filter P records
  | None => call c view catalogue = (Throw SyntaxError, catalogue)
  end.
Proof.
  split; [reflexivity|].
  apply (filter_twice_is_filter_once
           (FilterByCountryCodes [VStr "US"; VStr "ISS"]) view records catalogue).
  reflexivity.
Defined.

(** On the catalogue, for [filterByTypes] and [filterByStillOnOrbit]. *)
Lemma filters_commute_witness :
  let c1 := FilterByTypes [VStr "PAYLOAD"; VStr "ROCKET BODY"] in
  let c2 := FilterByStillOnOrbit in
  let P1 := λ sat, Array_includes [VStr "PAYLOAD"; VStr "ROCKET BODY"]
                     (Get sat "OBJECT_TYPE") in
  let P2 := λ sat, IsStrictlyEqual (Get sat "DECAY") VNull in
  predicate c1 = Some P1 ∧
  predicate c2 = Some P2 ∧
  catalogue !! view = Some (dense records) ∧
  ∃ (v1 v12 v2 v21 : loc) (σ1 σ12 σ2 σ21 : store) (ys : list record),
    call c1 view catalogue = (Normal v1, σ1) ∧
    call c2 v1 σ1 = (Normal v12, σ12) ∧
    call c2 view catalogue = (Normal v2, σ2) ∧
    call c1 v2 σ2 = (Normal v21, σ21) ∧
    σ12 !! v12 = Some (dense ys) ∧
    σ21 !! v21 = Some (dense ys) ∧
    ys = List.filter P2 (List.filter P1 records).
Proof.
  split_and!; [reflexivity | reflexivity | reflexivity |].
  apply (filters_commute
           (FilterByTypes [VStr "PAYLOAD"; VStr "ROCKET BODY"]) FilterByStillOnOrbit
           _ _ view records catalogue);
    reflexivity.
Defined.

(** On the three records whose launch year is a number. *)
Lemma launch_year_range_is_launch_years_witness :
  let xs := [sl1; iss; starlink] in
  let σ : store := {[ view := dense xs ]} in
  (1998 ≤ 2019)%Z ∧
  (∀ sat, sat ∈ xs →
          ∃ z, Number_equal (ToNumber (Get sat "LAUNCH_YEAR")) (integer z) = true) ∧
  σ !! view = Some (dense xs) ∧
  ∃ (new : loc) (ys : list record),
    filterByLaunchYearRange (integer 1998) (integer 2019) view σ
    = (Normal new, <[new := dense ys]> σ) ∧
    filterByLaunchYears (integers_from_to 1998 2019) view σ
    = (Normal new, <[new := dense ys]> σ).
Proof.
  assert (∀ sat, sat ∈ [sl1; iss; starlink] →
            ∃ z, Number_equal (ToNumber (Get sat "LAUNCH_YEAR")) (integer z) = true)
    as Hyears.
  { intros sat Hsat. repeat apply elem_of_cons in Hsat as [-> | Hsat];
      [by exists 1957%Z | by exists 1998%Z | by exists 2019%Z
      | by apply elem_of_nil in Hsat]. }
  split_and!; [lia | exact Hyears | reflexivity |].
  apply (launch_year_range_is_launch_years 1998 2019 view [sl1; iss; starlink]
           {[ view := dense [sl1; iss; starlink] ]});
    [lia | exact Hyears | reflexivity].
Defined.

(** On the catalogue. *)
Lemma filterByStillOnOrbit_keeps_null_decay_witness :
  catalogue !! view = Some (dense records) ∧
  ∃ (new : loc) (ys : list record),
    filterByStillOnOrbit view catalogue = (Normal new, <[new := dense ys]> catalogue) ∧
    sublist ys records ∧
    (∀ sat, sat ∈ ys ↔ sat ∈ records ∧ sat !! "DECAY" = Some VNull) ∧
    (∀ sat, sat !! "DECAY" = None → sat ∉ ys).
Proof.
  split; [reflexivity|].
  apply (filterByStillOnOrbit_keeps_null_decay view records catalogue).
  reflexivity.
Defined.

(** On the catalogue: the station and the Starlink satellite are on
    orbit; the fragment, which has no DECAY field, is not kept. *)
Example filterByStillOnOrbit_catalogue :
  filterByStillOnOrbit view catalogue
  = (Normal 2%positive, <[2%positive := dense [iss; starlink]]> catalogue).
Proof. vm_compute. reflexivity. Qed.

(* ================================================================= *)
(** ** Further properties of the class *)

Lemma omap_ext_elem_of {A B} (f g : A → option B) (l : list A) :
  (∀ x, x ∈ l → f x = g x) → omap f l = omap g l.
Proof.
  induction l as [|x l IH]; intros Hfg; [done|].
  cbn [omap list_omap]. rewrite (Hfg x) by left.
  assert (omap f l = omap g l) as Htail.
  { apply IH. intros y Hy. apply Hfg. by right. }
  destruct (g x); [f_equal|]; exact Htail.
Qed.

Lemma present_dense (xs : list record) : present (dense xs) = xs.
Proof.
  unfold present, dense. cbn [elements array_length].
  generalize 0%nat. induction xs as [|x xs IH]; intros j; [done|].
  cbn [length seq omap list_omap map_seq]. rewrite lookup_insert_eq. f_equal.
  rewrite <- (IH (S j)) at 2. apply omap_ext_elem_of.
  intros k Hk%elem_of_seq. apply lookup_insert_ne. lia.
Qed.

Lemma filter_loop_present (callbackfn : record → bool) (O A : loc) (o : array) :
  O ≠ A →
  ∀ (n k : nat) (acc : list record) (σ : store),
    σ !! O = Some o →
    σ !! A = Some (dense acc) →
    filter_loop callbackfn O A k (length acc) n σ
    = (Normal (),
       <[A := dense (acc ++ List.filter callbackfn
                              (omap (λ j, elements o !! j) (seq k n)))]> σ).
Proof.
  intros Hne. induction n as [|n IH]; intros k acc σ HO HA.
  - simpl. rewrite app_nil_r, insert_id by done. reflexivity.
  - cbn [filter_loop seq omap list_omap]. unfold mbind at 1, M_bind at 1, read at 1.
    rewrite HO. destruct (elements o !! k) as [x|]; [|by apply IH].
    cbn [List.filter]. destruct (callbackfn x); [|by apply IH].
    unfold mbind at 1, M_bind at 1.
    rewrite (CreateDataProperty_dense _ _ _ _ HA).
    replace (S (length acc)) with (length (acc ++ [x]))
      by (rewrite length_app; simpl; lia).
    rewrite IH.
    + rewrite insert_insert_eq, <- app_assoc. reflexivity.
    + by rewrite lookup_insert_ne.
    + by rewrite lookup_insert_eq.
Qed.

Lemma Array_filter_present (callbackfn : record → bool) (this : loc)
    (a : array) (σ : store) :
  σ !! this = Some a →
  Array_filter callbackfn this σ
  = (Normal (fresh (dom σ)),
     <[fresh (dom σ) := dense (List.filter callbackfn (present a))]> σ).
Proof.
  intros Hthis. pose proof (fresh_unused σ) as Hfresh.
  assert (this ≠ fresh (dom σ)) as Hne by congruence.
  unfold Array_filter, mbind at 1, M_bind at 1, read at 1. rewrite Hthis.
  unfold mbind at 1, M_bind at 1, SatCat_constructor, mbind at 1, M_bind at 1, alloc.
  cbn [mret M_ret]. unfold mbind at 1, M_bind at 1.
  rewrite dense_nil.
  rewrite (filter_loop_present callbackfn this _ a Hne (array_length a) 0 []).
  - simpl. by rewrite insert_insert_eq.
  - by rewrite lookup_insert_ne.
  - by rewrite lookup_insert_eq.
Qed.

Lemma filter_filter {A} (P Q : A → bool) (xs : list A) :
  List.filter Q (List.filter P xs) = List.filter (λ x, P x && Q x) xs.
Proof.
  induction xs as [|x xs IH]; simpl; [done|].
  destruct (P x) eqn:HP; simpl; [|done].
  destruct (Q x); by rewrite IH.
Qed.

Lemma filter_nothing {A} (P : A → bool) (xs : list A) :
  (∀ x, x ∈ xs → P x = false) → List.filter P xs = [].
Proof.
  induction xs as [|x xs IH]; simpl; [done|]. intros HP.
  rewrite (HP x) by left. apply IH. intros y Hy. apply HP. by right.
Qed.

Lemma Number_le_trans (x y z : number) :
  Number_le x y = true → Number_le y z = true → Number_le x z = true.
Proof.
  destruct x as [|p| |], y as [|q| |], z as [|r| |]; try done.
  unfold Number_le; simpl.
  destruct (Qle_bool p q) eqn:Hpq, (Qle_bool q r) eqn:Hqr; try done.
  intros _ _. apply Qle_bool_iff in Hpq, Hqr.
  by rewrite (proj2 (Qle_bool_iff p r) (Qle_trans _ _ _ Hpq Hqr)).
Qed.

Lemma Number_le_antisym (x y : number) :
  y ≠ NaN →
  Number_le y x && Number_le x y = Number_sameValueZero y x.
Proof.
  destruct x as [|p| |], y as [|q| |]; try done. intros _.
  unfold Number_le; simpl.
  destruct (Qle_bool q p) eqn:Hqp, (Qle_bool p q) eqn:Hpq; simpl; symmetry.
  - apply Qeq_bool_iff, Qle_antisym; by apply Qle_bool_iff.
  - apply not_true_is_false. intros Heq%Qeq_bool_iff.
    rewrite <- Heq in Hpq.
    by rewrite (proj2 (Qle_bool_iff q q) (Qle_refl q)) in Hpq.
  - apply not_true_is_false. intros Heq%Qeq_bool_iff.
    rewrite Heq in Hqp.
    by rewrite (proj2 (Qle_bool_iff p p) (Qle_refl p)) in Hqp.
  - apply not_true_is_false. intros Heq%Qeq_bool_iff.
    rewrite Heq in Hqp.
    by rewrite (proj2 (Qle_bool_iff p p) (Qle_refl p)) in Hqp.
Qed.

Lemma Array_includes_app (a b : list value) (v : value) :
  Array_includes (a ++ b) v = Array_includes a v || Array_includes b v.
Proof.
  induction a as [|x a IH]; simpl; [done|].
  by destruct (SameValueZero x v).
Qed.

Lemma Array_includes_same_elements (a b : list value) (v : value) :
  (∀ x, x ∈ a ↔ x ∈ b) → Array_includes a v = Array_includes b v.
Proof.
  intros Hab. apply eq_true_iff_eq. rewrite !Array_includes_true.
  split; intros (x & Hx & Hv); exists x; (split; [by apply Hab | done]).
Qed.

Lemma filter_everything {A} (xs : list A) : List.filter (λ _, true) xs = xs.
Proof. induction xs as [|x xs IH]; simpl; by rewrite ?IH. Qed.

Lemma filter_union_length {A} (P Q : A → bool) (xs : list A) :
  (∀ x, x ∈ xs → P x = true → Q x = false) →
  length (List.filter (λ x, P x || Q x) xs)
  = (length (List.filter P xs) + length (List.filter Q xs))%nat.
Proof.
  induction xs as [|x xs IH]; intros Hdisjoint; simpl; [done|].
  assert (∀ y, y ∈ xs → P y = true → Q y = false) as Htail.
  { intros y Hy. apply Hdisjoint. by right. }
  specialize (IH Htail). pose proof (Hdisjoint x ltac:(left)) as Hx.
  destruct (P x); simpl.
  - rewrite Hx by done. simpl. lia.
  - destruct (Q x); simpl; lia.
Qed.

Lemma present_length (a : array) : (length (present a) ≤ array_length a)%nat.
Proof.
  unfold present.
  transitivity (length (seq 0 (array_length a))); [|by rewrite length_seq].
  generalize (seq 0 (array_length a)). intros l.
  induction l as [|k l IH]; [done|].
  cbn [omap list_omap]. fold (omap (λ k, elements a !! k) l).
  destruct (elements a !! k); cbn [length]; lia.
Qed.

(** X1.  [new SatCat(data)] on an array of records makes a view at a
    location that the store did not use; the view has the length of
    [data] and holds [data[i]] at every index [i]; nothing else in the
    store changes. *)
Theorem SatCat_constructor_holds_data (data : list record) (σ : store) :
  ∃ (new : loc) (a : array),
    SatCat_constructor (DataArray data) σ = (Normal new, <[new := a]> σ) ∧
    σ !! new = None ∧
    array_length a = length data ∧
    (∀ i, elements a !! i = data !! i) ∧
    present a = data.
Proof.
  exists (fresh (dom σ)), (dense data). split_and!.
  - apply SatCat_constructor_dense.
  - apply fresh_unused.
  - done.
  - apply dense_lookup.
  - apply present_dense.
Qed.

Section Further.
Context {host : Host}.

Lemma call_present (c : filter_call) (this : loc) (a : array) (σ : store) :
  σ !! this = Some a →
  call c this σ
  = match predicate c with
    | Some P => (Normal (fresh (dom σ)),
                 <[fresh (dom σ) := dense (List.filter P (present a))]> σ)
    | None => (Throw SyntaxError, σ)
    end.
Proof.
  intros Hthis. rewrite call_predicate.
  destruct (predicate c); [by apply Array_filter_present | done].
Qed.

(** X2.  On a receiver with holes (an array whose [length] exceeds its
    elements), a filter method skips the holes: the result holds the
    matching records among the elements that are present, in the order
    of their indices, and has no hole itself. *)
Theorem filter_call_skips_holes
    (c : filter_call) (P : record → bool) (this : loc) (a : array) (σ : store) :
  predicate c = Some P →
  σ !! this = Some a →
  ∃ (new : loc) (ys : list record),
    call c this σ = (Normal new, <[new := dense ys]> σ) ∧
    σ !! new = None ∧
    ys = List.filter P (present a) ∧
    (length ys ≤ array_length a)%nat ∧
    (∀ i, (i < array_length (dense ys))%nat → is_Some (elements (dense ys) !! i)).
Proof.
  intros HP Hthis. rewrite (call_present c this a σ Hthis), HP.
  eexists _, _. split_and!; [done | apply fresh_unused | done | |].
  - etransitivity; [apply sublist_length, filter_sublist | apply present_length].
  - intros i Hi. rewrite dense_lookup. by apply lookup_lt_is_Some.
Qed.

(** X3.  Chaining.  A chain of calls whose patterns compile returns a
    view with the records that satisfy the predicates of all the calls,
    in the order of the receiver.  Every array that was in the store is
    still there, unchanged, and the chain adds one array for each
    call. *)
Theorem chain_keeps_what_all_keep
    (calls : list filter_call) (Ps : list (record → bool))
    (this : loc) (xs : list record) (σ : store) :
  Forall2 (λ c P, predicate c = Some P) calls Ps →
  σ !! this = Some (dense xs) →
  ∃ (last : loc) (σ' : store),
    chain calls this σ = (Normal last, σ') ∧
    σ' !! last = Some (dense (List.filter (λ sat, forallb (λ P, P sat) Ps) xs)) ∧
    σ ⊆ σ' ∧
    size σ' = (size σ + length calls)%nat.
Proof.
  intros Hcalls. revert this xs σ.
  induction Hcalls as [|c P calls Ps HP _ IH]; intros this xs σ Hthis.
  - exists this, σ. simpl. rewrite filter_everything. split_and!; [done | done | done | lia].
  - pose proof (fresh_unused σ) as Hnew.
    cbn [chain]. unfold mbind at 1, M_bind at 1.
    rewrite (call_dense c this xs σ Hthis), HP.
    destruct (IH (fresh (dom σ)) (List.filter P xs)
                 (<[fresh (dom σ) := dense (List.filter P xs)]> σ))
      as (last & σ' & Hchain & Hlast & Hsub & Hsize);
      [by rewrite lookup_insert_eq|].
    exists last, σ'. split_and!.
    + done.
    + rewrite Hlast, filter_filter. done.
    + etransitivity; [by apply insert_subseteq | done].
    + rewrite Hsize, map_size_insert_None by done. simpl. lia.
Qed.

Lemma membership_predicate (method : list value → filter_call) :
  membership_filter method →
  ∃ field : record → value,
    ∀ array, predicate (method array) = Some (λ sat, Array_includes array (field sat)).
Proof.
  intros [-> | [-> | [-> | ->]]]; by eexists.
Qed.

(** X4.  For the four methods that test membership in an array
    ([filterByTypes], [filterByCountryCodes], [filterByLaunchYears],
    [filterByNoradIds]), the array [a.concat(b)] keeps the records that
    [a] keeps or [b] keeps; when no record is kept by both, the lengths
    add up. *)
Theorem membership_filter_union
    (method : list value → filter_call) (a b : list value)
    (this : loc) (xs : list record) (σ : store) :
  membership_filter method →
  σ !! this = Some (dense xs) →
  ∃ (new : loc) (ya yb yab : list record),
    call (method a) this σ = (Normal new, <[new := dense ya]> σ) ∧
    call (method b) this σ = (Normal new, <[new := dense yb]> σ) ∧
    call (method (a ++ b)) this σ = (Normal new, <[new := dense yab]> σ) ∧
    (∀ sat, sat ∈ yab ↔ sat ∈ ya ∨ sat ∈ yb) ∧
    ((∀ sat, sat ∈ ya → sat ∉ yb) →
     length yab = (length ya + length yb)%nat).
Proof.
  intros [field Hfield]%membership_predicate Hthis.
  rewrite !(call_dense _ this xs σ Hthis), !Hfield.
  eexists _, _, _, _. split_and!; [done | done | done | |].
  - intros sat. rewrite !filter_elem_of, Array_includes_app, orb_true_iff. tauto.
  - intros Hdisjoint.
    rewrite <- filter_union_length.
    + f_equal. apply filter_ext_elem_of. intros sat _. apply Array_includes_app.
    + intros sat Hsat Ha.
      destruct (Array_includes b (field sat)) eqn:Hb; [|done].
      destruct (Hdisjoint sat); by apply filter_elem_of.
Qed.

(** X5.  For the same four methods only the elements of the array
    count, not their order or their number: two arrays with the same
    elements give the same result. *)
Theorem membership_filter_same_elements
    (method : list value → filter_call) (a b : list value)
    (this : loc) (xs : list record) (σ : store) :
  membership_filter method →
  (∀ x, x ∈ a ↔ x ∈ b) →
  σ !! this = Some (dense xs) →
  call (method a) this σ = call (method b) this σ ∧
  ∃ (new : loc) (ys : list record),
    call (method a) this σ = (Normal new, <[new := dense ys]> σ).
Proof.
  intros [field Hfield]%membership_predicate Hab Hthis.
  rewrite !(call_dense _ this xs σ Hthis), !Hfield. split; [|by eexists _, _].
  do 3 f_equal. apply filter_ext_elem_of. intros sat _.
  by apply Array_includes_same_elements.
Qed.

(** X6.  The same four methods with an empty array return the empty
    view, whatever the receiver holds. *)
Theorem membership_filter_empty_array
    (method : list value → filter_call) (this : loc) (a : array) (σ : store) :
  membership_filter method →
  σ !! this = Some a →
  ∃ new : loc,
    call (method []) this σ = (Normal new, <[new := dense []]> σ) ∧
    σ !! new = None.
Proof.
  intros [field Hfield]%membership_predicate Hthis.
  rewrite (call_present _ this a σ Hthis), Hfield.
  eexists. split; [|apply fresh_unused].
  by rewrite filter_nothing.
Qed.

(** X7.  A field that is [null] coerces to zero: a numeric filter keeps
    a record of the view whose field is [null] exactly when the number
    zero passes the filter.  (So [filterByMaxPerigee(500)] keeps the
    records whose perigee is [null].) *)
Theorem numeric_filter_null_is_zero
    (c : filter_call) (key : string) (sat : record)
    (this : loc) (xs : list record) (σ : store) :
  numeric_field c = Some key →
  sat !! key = Some VNull →
  sat ∈ xs →
  σ !! this = Some (dense xs) →
  ∃ (new : loc) (ys : list record),
    call c this σ = (Normal new, <[new := dense ys]> σ) ∧
    (sat ∈ ys ↔ zero_passes c).
Proof.
  intros Hkey Hnull Hsat Hthis. rewrite (call_dense c this xs σ Hthis).
  assert (ToNumber (Get sat key) = Finite 0) as Hzero.
  { unfold Get. by rewrite Hnull. }
  destruct c; try done; simpl in *; simplify_eq;
    eexists _, _; (split; [done|]); rewrite filter_elem_of, Hzero.
  - tauto.
  - rewrite andb_true_iff, Number_ge_le. tauto.
  - tauto.
  - rewrite Number_ge_le. tauto.
Qed.

(** X8.  [filterByLaunchYears] with [NaN] among the years keeps every
    record of the view whose launch year is absent or does not coerce
    to a number: [includes] finds [NaN]. *)
Theorem filterByLaunchYears_NaN_keeps_non_numeric
    (years : list value) (sat : record)
    (this : loc) (xs : list record) (σ : store) :
  Array_includes years (VNum NaN) = true →
  absent_or_non_numeric sat "LAUNCH_YEAR" →
  sat ∈ xs →
  σ !! this = Some (dense xs) →
  ∃ (new : loc) (ys : list record),
    filterByLaunchYears years this σ = (Normal new, <[new := dense ys]> σ) ∧
    sat ∈ ys.
Proof.
  intros HNaN Hfield%absent_or_non_numeric_NaN Hsat Hthis.
  unfold filterByLaunchYears. rewrite (Array_filter_dense _ _ _ _ Hthis).
  eexists _, _. split; [done|]. rewrite filter_elem_of, Hfield. done.
Qed.

(** X9.  [filterByLaunchYearRange(startYear, endYear)] with
    [endYear < startYear], or with a bound that is [NaN], returns the
    empty view. *)
Theorem filterByLaunchYearRange_empty_range
    (startYear endYear : number) (this : loc) (a : array) (σ : store) :
  Number_le startYear endYear = false →
  σ !! this = Some a →
  ∃ new : loc,
    filterByLaunchYearRange startYear endYear this σ
    = (Normal new, <[new := dense []]> σ) ∧
    σ !! new = None.
Proof.
  intros Hempty Hthis.
  unfold filterByLaunchYearRange. rewrite (Array_filter_present _ _ _ _ Hthis).
  eexists. split; [|apply fresh_unused].
  rewrite filter_nothing; [done|]. intros sat _. cbv zeta.
  apply not_true_is_false. rewrite andb_true_iff, Number_ge_le. intros [Hs He].
  by rewrite (Number_le_trans _ _ _ Hs He) in Hempty.
Qed.

Lemma narrower_predicate (narrow wide : filter_call) :
  narrower narrow wide →
  ∃ P' P, predicate narrow = Some P' ∧ predicate wide = Some P ∧
          ∀ sat, P' sat = true → P sat = true.
Proof.
  destruct narrow, wide; try done; simpl; intros Hn; eexists _, _;
    (split; [done|]); (split; [done|]); intros sat; cbv beta.
  - destruct Hn as [Hs He]. rewrite !andb_true_iff, !Number_ge_le.
    intros [Hs' He']. split; by eapply Number_le_trans.
  - intros Hm. by eapply Number_le_trans.
  - rewrite !Number_ge_le. intros Hm. by eapply Number_le_trans.
Qed.

(** X10.  A bound filter applied to the result of the same filter with
    wider bounds returns what it returns on the receiver itself: the
    second filter absorbs the first, and its result is a subsequence of
    the first's. *)
Theorem narrower_filter_absorbs_wider
    (narrow wide : filter_call) (this : loc) (xs : list record) (σ : store) :
  narrower narrow wide →
  σ !! this = Some (dense xs) →
  ∃ (v w u : loc) (σ2 : store) (ys zs : list record),
    chain [wide; narrow] this σ = (Normal v, σ2) ∧
    σ2 !! v = Some (dense ys) ∧
    call narrow this σ = (Normal w, <[w := dense ys]> σ) ∧
    call wide this σ = (Normal u, <[u := dense zs]> σ) ∧
    sublist ys zs.
Proof.
  intros (P' & P & HP' & HP & Himp)%narrower_predicate Hthis.
  cbn [chain]. unfold mbind at 1, M_bind at 1.
  rewrite !(call_dense _ this xs σ Hthis), HP, HP'.
  unfold mbind at 1, M_bind at 1.
  rewrite (call_dense narrow _ (List.filter P xs)) by (by rewrite lookup_insert_eq).
  rewrite HP'. cbn [mret M_ret].
  assert (List.filter P' (List.filter P xs) = List.filter P' xs) as Habsorb.
  { rewrite filter_filter. apply filter_ext_elem_of. intros sat _.
    destruct (P' sat) eqn:Hsat; [|by rewrite andb_false_r].
    by rewrite (Himp sat Hsat). }
  eexists _, _, _, _, _, _. split_and!; [done | | done | done |].
  - by rewrite lookup_insert_eq, Habsorb.
  - rewrite <- Habsorb. apply filter_sublist.
Qed.

(** X11.  A range of one year is that year: for a number [year] other
    than [NaN], [filterByLaunchYearRange(year, year)] returns what
    [filterByLaunchYears([year])] returns. *)
Theorem filterByLaunchYearRange_single_year
    (year : number) (this : loc) (a : array) (σ : store) :
  year ≠ NaN →
  σ !! this = Some a →
  ∃ (new : loc) (ys : list record),
    filterByLaunchYearRange year year this σ = (Normal new, <[new := dense ys]> σ) ∧
    filterByLaunchYears [VNum year] this σ = (Normal new, <[new := dense ys]> σ).
Proof.
  intros Hyear Hthis.
  unfold filterByLaunchYearRange, filterByLaunchYears.
  rewrite !(Array_filter_present _ _ _ _ Hthis).
  eexists _, _. split; [done|]. do 3 f_equal.
  apply filter_ext_elem_of. intros sat _. cbv zeta. simpl.
  rewrite Number_ge_le, Number_le_antisym by done.
  by destruct (Number_sameValueZero _ _).
Qed.

(** X12.  The pattern filters match the string form of the field: a
    record without SATNAME is kept by [filterByNamePattern] exactly when
    the expression matches the text [undefined], a SATNAME that is
    [null] is matched as the text [null], and a NORAD_CAT_ID stored as a
    number is matched by [filterByNoradIdPattern] in its string form. *)
Theorem pattern_filters_match_string_form
    (pattern : string) (regex : RegExp)
    (this : loc) (xs : list record) (σ : store) :
  RegExpCreate pattern "i" = Some regex →
  σ !! this = Some (dense xs) →
  ∃ (new : loc) (by_name by_id : list record),
    filterByNamePattern pattern this σ = (Normal new, <[new := dense by_name]> σ) ∧
    filterByNoradIdPattern pattern this σ = (Normal new, <[new := dense by_id]> σ) ∧
    (∀ sat, sat !! "SATNAME" = None →
            sat ∈ by_name ↔ sat ∈ xs ∧ RegExpTest regex "undefined" = true) ∧
    (∀ sat, sat !! "SATNAME" = Some VNull →
            sat ∈ by_name ↔ sat ∈ xs ∧ RegExpTest regex "null" = true) ∧
    (∀ sat n, sat !! "NORAD_CAT_ID" = Some (VNum n) →
              sat ∈ by_id ↔ sat ∈ xs ∧ RegExpTest regex (NumberToString n) = true).
Proof.
  intros Hregex Hthis.
  pose proof (call_dense (FilterByNamePattern pattern) this xs σ Hthis) as Hname.
  pose proof (call_dense (FilterByNoradIdPattern pattern) this xs σ Hthis) as Hid.
  simpl in Hname, Hid. rewrite Hregex in Hname, Hid. simpl in Hname, Hid.
  eexists _, _, _. split_and!; [done | done | | |].
  - intros sat Hsat. rewrite filter_elem_of. unfold Get. by rewrite Hsat.
  - intros sat Hsat. rewrite filter_elem_of. unfold Get. by rewrite Hsat.
  - intros sat n Hsat. rewrite filter_elem_of. unfold Get. by rewrite Hsat.
Qed.

(** X13.  [filterByLaunchYears] compares the launch year, coerced to a
    number, without coercing the years: with an array that holds no
    number (years written as strings, say) it returns the empty
    view. *)
Theorem filterByLaunchYears_needs_numbers
    (years : list value) (this : loc) (a : array) (σ : store) :
  (∀ v, v ∈ years → is_number v = false) →
  σ !! this = Some a →
  ∃ new : loc,
    filterByLaunchYears years this σ = (Normal new, <[new := dense []]> σ) ∧
    σ !! new = None.
Proof.
  intros Hyears Hthis.
  unfold filterByLaunchYears. rewrite (Array_filter_present _ _ _ _ Hthis).
  eexists. split; [|apply fresh_unused].
  rewrite filter_nothing; [done|]. intros sat _.
  apply not_true_is_false. intros (v & Hv & Hsame)%Array_includes_true.
  specialize (Hyears v Hv). by destruct v.
Qed.

(** X14.  [filterByTypes] and [filterByCountryCodes] with arrays of
    strings keep exactly the records whose field is a string of the
    array; a record without the field is not kept. *)
Theorem string_membership_needs_string_field
    (names : list string) (this : loc) (xs : list record) (σ : store) :
  σ !! this = Some (dense xs) →
  ∃ (new : loc) (by_type by_country : list record),
    filterByTypes (VStr <$> names) this σ
    = (Normal new, <[new := dense by_type]> σ) ∧
    filterByCountryCodes (VStr <$> names) this σ
    = (Normal new, <[new := dense by_country]> σ) ∧
    (∀ sat, sat ∈ by_type ↔
            sat ∈ xs ∧ ∃ s, sat !! "OBJECT_TYPE" = Some (VStr s) ∧ s ∈ names) ∧
    (∀ sat, sat ∈ by_country ↔
            sat ∈ xs ∧ ∃ s, sat !! "COUNTRY" = Some (VStr s) ∧ s ∈ names) ∧
    (∀ sat, sat !! "OBJECT_TYPE" = None → sat ∉ by_type) ∧
    (∀ sat, sat !! "COUNTRY" = None → sat ∉ by_country).
Proof.
  intros Hthis.
  assert (∀ (sat : record) key,
            (∃ s, Get sat key = VStr s ∧ s ∈ names)
            ↔ ∃ s, sat !! key = Some (VStr s) ∧ s ∈ names) as Hget.
  { intros sat key. unfold Get.
    destruct (sat !! key) as [v|]; simpl; split; intros (s & Hs & Hin);
      exists s; (split; [congruence | done]). }
  unfold filterByTypes, filterByCountryCodes.
  rewrite !(Array_filter_dense _ _ _ _ Hthis).
  eexists _, _, _. split_and!; [done | done | | | |].
  - intros sat. by rewrite filter_elem_of, Array_includes_strings, Hget.
  - intros sat. by rewrite filter_elem_of, Array_includes_strings, Hget.
  - intros sat Hsat. rewrite filter_elem_of, Array_includes_strings, Hget, Hsat.
    by intros (_ & s & ? & _).
  - intros sat Hsat. rewrite filter_elem_of, Array_includes_strings, Hget, Hsat.
    by intros (_ & s & ? & _).
Qed.

End Further.

(* ================================================================= *)
(** ** The further properties on the catalogue *)

(** On the view with holes, for [filterByStillOnOrbit]. *)
Lemma filter_call_skips_holes_witness :
  let P := λ sat, IsStrictlyEqual (Get sat "DECAY") VNull in
  predicate FilterByStillOnOrbit = Some P ∧
  Holes.sparse_catalogue !! view = Some Holes.sparse ∧
  ∃ (new : loc) (ys : list record),
    call FilterByStillOnOrbit view Holes.sparse_catalogue
    = (Normal new, <[new := dense ys]> Holes.sparse_catalogue) ∧
    Holes.sparse_catalogue !! new = None ∧
    ys = List.filter P (present Holes.sparse) ∧
    (length ys ≤ array_length Holes.sparse)%nat ∧
    (∀ i, (i < array_length (dense ys))%nat → is_Some (elements (dense ys) !! i)).
Proof.
  split_and!; [reflexivity | reflexivity |].
  apply (filter_call_skips_holes FilterByStillOnOrbit _ view Holes.sparse
           Holes.sparse_catalogue); reflexivity.
Defined.

(** The three elements of the view with holes, and what the filter
    keeps of them. *)
Example sparse_on_orbit :
  present Holes.sparse = [iss; sl1; Holes.anonymous] ∧
  filterByStillOnOrbit view Holes.sparse_catalogue
  = (Normal 2%positive,
     <[2%positive := dense [iss; Holes.anonymous]]> Holes.sparse_catalogue).
Proof. split; vm_compute; reflexivity. Qed.

(** On the catalogue: payloads, on orbit, with a perigee of at most
    500 km. *)
Lemma chain_keeps_what_all_keep_witness :
  let calls := [FilterByTypes [VStr "PAYLOAD"]; FilterByStillOnOrbit;
                FilterByMaxPerigee (integer 500)] in
  let Ps := [ (λ sat, Array_includes [VStr "PAYLOAD"] (Get sat "OBJECT_TYPE"));
              (λ sat, IsStrictlyEqual (Get sat "DECAY") VNull);
              (λ sat, Number_le (ToNumber (Get sat "PERIGEE")) (integer 500)) ] in
  Forall2 (λ c P, predicate c = Some P) calls Ps ∧
  catalogue !! view = Some (dense records) ∧
  ∃ (last : loc) (σ' : store),
    chain calls view catalogue = (Normal last, σ') ∧
    σ' !! last
    = Some (dense (List.filter (λ sat, forallb (λ P, P sat) Ps) records)) ∧
    catalogue ⊆ σ' ∧
    size σ' = (size catalogue + length calls)%nat.
Proof.
  assert (Forall2 (λ c P, predicate c = Some P)
            [FilterByTypes [VStr "PAYLOAD"]; FilterByStillOnOrbit;
             FilterByMaxPerigee (integer 500)]
            [ (λ sat, Array_includes [VStr "PAYLOAD"] (Get sat "OBJECT_TYPE"));
              (λ sat, IsStrictlyEqual (Get sat "DECAY") VNull);
              (λ sat, Number_le (ToNumber (Get sat "PERIGEE")) (integer 500)) ])
    as Hcalls.
  { repeat constructor. }
  split_and!; [exact Hcalls | reflexivity |].
  apply (chain_keeps_what_all_keep _ _ view records catalogue Hcalls).
  reflexivity.
Defined.

Example chain_on_catalogue :
  chain [FilterByTypes [VStr "PAYLOAD"]; FilterByStillOnOrbit;
         FilterByMaxPerigee (integer 500)] view catalogue
  = (Normal 4%positive,
     <[4%positive := dense [iss]]>
       (<[3%positive := dense [iss; starlink]]>
          (<[2%positive := dense [iss; starlink]]> catalogue))).
Proof. vm_compute. reflexivity. Qed.

(** On the catalogue, as in the repository's test of
    [filterByCountryCodes]: two codes, then each of them. *)
Lemma membership_filter_union_witness :
  membership_filter FilterByCountryCodes ∧
  catalogue !! view = Some (dense records) ∧
  ∃ (new : loc) (ya yb yab : list record),
    call (FilterByCountryCodes [VStr "US"]) view catalogue
    = (Normal new, <[new := dense ya]> catalogue) ∧
    call (FilterByCountryCodes [VStr "ISS"]) view catalogue
    = (Normal new, <[new := dense yb]> catalogue) ∧
    call (FilterByCountryCodes ([VStr "US"] ++ [VStr "ISS"])) view catalogue
    = (Normal new, <[new := dense yab]> catalogue) ∧
    (∀ sat, sat ∈ yab ↔ sat ∈ ya ∨ sat ∈ yb) ∧
    ((∀ sat, sat ∈ ya → sat ∉ yb) →
     length yab = (length ya + length yb)%nat).
Proof.
  assert (membership_filter FilterByCountryCodes) as Hmethod.
  { right. left. reflexivity. }
  split_and!; [exact Hmethod | reflexivity |].
  apply (membership_filter_union FilterByCountryCodes [VStr "US"] [VStr "ISS"]
           view records catalogue Hmethod).
  reflexivity.
Defined.

(** On the catalogue: the codes in another order, one of them twice. *)
Lemma membership_filter_same_elements_witness :
  let a := [VStr "US"; VStr "ISS"] in
  let b := [VStr "ISS"; VStr "US"; VStr "ISS"] in
  membership_filter FilterByCountryCodes ∧
  (∀ x, x ∈ a ↔ x ∈ b) ∧
  catalogue !! view = Some (dense records) ∧
  call (FilterByCountryCodes a) view catalogue
  = call (FilterByCountryCodes b) view catalogue ∧
  ∃ (new : loc) (ys : list record),
    call (FilterByCountryCodes a) view catalogue
    = (Normal new, <[new := dense ys]> catalogue).
Proof.
  assert (membership_filter FilterByCountryCodes) as Hmethod.
  { right. left. reflexivity. }
  assert (∀ x : value, x ∈ [VStr "US"; VStr "ISS"]
                       ↔ x ∈ [VStr "ISS"; VStr "US"; VStr "ISS"]) as Hsame.
  { intros x. rewrite !elem_of_cons, !elem_of_nil. tauto. }
  split_and!; [exact Hmethod | exact Hsame | reflexivity | |];
    apply (membership_filter_same_elements FilterByCountryCodes _ _
             view records catalogue Hmethod Hsame);
    reflexivity.
Defined.

(** On the view with holes, for [filterByTypes([])]. *)
Lemma membership_filter_empty_array_witness :
  membership_filter FilterByTypes ∧
  Holes.sparse_catalogue !! view = Some Holes.sparse ∧
  ∃ new : loc,
    call (FilterByTypes []) view Holes.sparse_catalogue
    = (Normal new, <[new := dense []]> Holes.sparse_catalogue) ∧
    Holes.sparse_catalogue !! new = None.
Proof.
  assert (membership_filter FilterByTypes) as Hmethod.
  { left. reflexivity. }
  split_and!; [exact Hmethod | reflexivity |].
  apply (membership_filter_empty_array FilterByTypes view Holes.sparse
           Holes.sparse_catalogue Hmethod).
  reflexivity.
Defined.

(** The record without a name has a perigee that is [null]:
    [filterByMaxPerigee(500)] keeps it. *)
Lemma numeric_filter_null_is_zero_witness :
  let c := FilterByMaxPerigee (integer 500) in
  let xs := [iss; Holes.anonymous] in
  numeric_field c = Some "PERIGEE" ∧
  Holes.anonymous !! "PERIGEE" = Some VNull ∧
  Holes.anonymous ∈ xs ∧
  Holes.anonymous_catalogue !! view = Some (dense xs) ∧
  ∃ (new : loc) (ys : list record),
    call c view Holes.anonymous_catalogue
    = (Normal new, <[new := dense ys]> Holes.anonymous_catalogue) ∧
    (Holes.anonymous ∈ ys ↔ zero_passes c).
Proof.
  assert (Holes.anonymous ∈ [iss; Holes.anonymous]) as Hin.
  { right. left. }
  split_and!; [reflexivity | reflexivity | exact Hin | reflexivity |].
  apply (numeric_filter_null_is_zero (FilterByMaxPerigee (integer 500)) "PERIGEE"
           Holes.anonymous view [iss; Holes.anonymous] Holes.anonymous_catalogue);
    [reflexivity | reflexivity | exact Hin | reflexivity].
Defined.

(** On the catalogue: with [NaN] among the years the fragment, whose
    launch year is not a number, is kept. *)
Lemma filterByLaunchYears_NaN_keeps_non_numeric_witness :
  let years := [VNum NaN; VNum (integer 2019)] in
  Array_includes years (VNum NaN) = true ∧
  absent_or_non_numeric fragment "LAUNCH_YEAR" ∧
  fragment ∈ records ∧
  catalogue !! view = Some (dense records) ∧
  ∃ (new : loc) (ys : list record),
    filterByLaunchYears years view catalogue
    = (Normal new, <[new := dense ys]> catalogue) ∧
    fragment ∈ ys.
Proof.
  assert (absent_or_non_numeric fragment "LAUNCH_YEAR") as Hfield.
  { right. exists "unknown". split; reflexivity. }
  assert (fragment ∈ records) as Hin.
  { do 2 right. left. }
  split_and!; [reflexivity | exact Hfield | exact Hin | reflexivity |].
  apply (filterByLaunchYears_NaN_keeps_non_numeric
           [VNum NaN; VNum (integer 2019)] fragment view records catalogue);
    [reflexivity | exact Hfield | exact Hin | reflexivity].
Defined.

(** On the catalogue, for the range from 2020 down to 2018. *)
Lemma filterByLaunchYearRange_empty_range_witness :
  Number_le (integer 2020) (integer 2018) = false ∧
  catalogue !! view = Some (dense records) ∧
  ∃ new : loc,
    filterByLaunchYearRange (integer 2020) (integer 2018) view catalogue
    = (Normal new, <[new := dense []]> catalogue) ∧
    catalogue !! new = None.
Proof.
  split_and!; [reflexivity | reflexivity |].
  apply (filterByLaunchYearRange_empty_range (integer 2020) (integer 2018)
           view (dense records) catalogue); reflexivity.
Defined.

(** On the catalogue: a perigee of at most 300 km after a perigee of at
    most 500 km. *)
Lemma narrower_filter_absorbs_wider_witness :
  let narrow := FilterByMaxPerigee (integer 300) in
  let wide := FilterByMaxPerigee (integer 500) in
  narrower narrow wide ∧
  catalogue !! view = Some (dense records) ∧
  ∃ (v w u : loc) (σ2 : store) (ys zs : list record),
    chain [wide; narrow] view catalogue = (Normal v, σ2) ∧
    σ2 !! v = Some (dense ys) ∧
    call narrow view catalogue = (Normal w, <[w := dense ys]> catalogue) ∧
    call wide view catalogue = (Normal u, <[u := dense zs]> catalogue) ∧
    sublist ys zs.
Proof.
  split_and!; [reflexivity | reflexivity |].
  apply (narrower_filter_absorbs_wider (FilterByMaxPerigee (integer 300))
           (FilterByMaxPerigee (integer 500)) view records catalogue);
    reflexivity.
Defined.

(** On the catalogue, for the year 1998. *)
Lemma filterByLaunchYearRange_single_year_witness :
  integer 1998 ≠ NaN ∧
  catalogue !! view = Some (dense records) ∧
  ∃ (new : loc) (ys : list record),
    filterByLaunchYearRange (integer 1998) (integer 1998) view catalogue
    = (Normal new, <[new := dense ys]> catalogue) ∧
    filterByLaunchYears [VNum (integer 1998)] view catalogue
    = (Normal new, <[new := dense ys]> catalogue).
Proof.
  assert (integer 1998 ≠ NaN) as Hyear by discriminate.
  split_and!; [exact Hyear | reflexivity |].
  apply (filterByLaunchYearRange_single_year (integer 1998) view (dense records)
           catalogue Hyear).
  reflexivity.
Defined.

(** The record without a name is found under the text [undefined], and
    by the digits of its identifier, which is stored as a number. *)
Lemma pattern_filters_match_string_form_witness :
  let xs := [iss; Holes.anonymous] in
  ∃ regex : RegExp,
    RegExpCreate "^undef|2702" "i" = Some regex ∧
    Holes.anonymous_catalogue !! view = Some (dense xs) ∧
    ∃ (new : loc) (by_name by_id : list record),
      filterByNamePattern "^undef|2702" view Holes.anonymous_catalogue
      = (Normal new, <[new := dense by_name]> Holes.anonymous_catalogue) ∧
      filterByNoradIdPattern "^undef|2702" view Holes.anonymous_catalogue
      = (Normal new, <[new := dense by_id]> Holes.anonymous_catalogue) ∧
      (∀ sat, sat !! "SATNAME" = None →
              sat ∈ by_name ↔ sat ∈ xs ∧ RegExpTest regex "undefined" = true) ∧
      (∀ sat, sat !! "SATNAME" = Some VNull →
              sat ∈ by_name ↔ sat ∈ xs ∧ RegExpTest regex "null" = true) ∧
      (∀ sat n, sat !! "NORAD_CAT_ID" = Some (VNum n) →
                sat ∈ by_id ↔ sat ∈ xs ∧ RegExpTest regex (NumberToString n) = true).
Proof.
  eexists. split; [reflexivity|]. split; [reflexivity|].
  apply (pattern_filters_match_string_form "^undef|2702" _ view
           [iss; Holes.anonymous] Holes.anonymous_catalogue);
    reflexivity.
Defined.

Example anonymous_found_by_pattern :
  filterByNamePattern "^undef|2702" view Holes.anonymous_catalogue
  = (Normal 2%positive,
     <[2%positive := dense [Holes.anonymous]]> Holes.anonymous_catalogue) ∧
  filterByNoradIdPattern "^undef|2702" view Holes.anonymous_catalogue
  = (Normal 2%positive,
     <[2%positive := dense [Holes.anonymous]]> Holes.anonymous_catalogue).
Proof. split; vm_compute; reflexivity. Qed.

(** On the catalogue, for the year written as a string. *)
Lemma filterByLaunchYears_needs_numbers_witness :
  (∀ v, v ∈ [VStr "2019"] → is_number v = false) ∧
  catalogue !! view = Some (dense records) ∧
  ∃ new : loc,
    filterByLaunchYears [VStr "2019"] view catalogue
    = (Normal new, <[new := dense []]> catalogue) ∧
    catalogue !! new = None.
Proof.
  assert (∀ v, v ∈ [VStr "2019"] → is_number v = false) as Hyears.
  { intros v Hv. apply elem_of_cons in Hv as [-> | Hv]; [reflexivity|].
    by apply elem_of_nil in Hv. }
  split_and!; [exact Hyears | reflexivity |].
  apply (filterByLaunchYears_needs_numbers [VStr "2019"] view (dense records)
           catalogue Hyears).
  reflexivity.
Defined.

(** On the catalogue, for the names [PAYLOAD] and [US]. *)
Lemma string_membership_needs_string_field_witness :
  let names := ["PAYLOAD"; "US"] in
  catalogue !! view = Some (dense records) ∧
  ∃ (new : loc) (by_type by_country : list record),
    filterByTypes (VStr <$> names) view catalogue
    = (Normal new, <[new := dense by_type]> catalogue) ∧
    filterByCountryCodes (VStr <$> names) view catalogue
    = (Normal new, <[new := dense by_country]> catalogue) ∧
    (∀ sat, sat ∈ by_type ↔
            sat ∈ records ∧ ∃ s, sat !! "OBJECT_TYPE" = Some (VStr s) ∧ s ∈ names) ∧
    (∀ sat, sat ∈ by_country ↔
            sat ∈ records ∧ ∃ s, sat !! "COUNTRY" = Some (VStr s) ∧ s ∈ names) ∧
    (∀ sat, sat !! "OBJECT_TYPE" = None → sat ∉ by_type) ∧
    (∀ sat, sat !! "COUNTRY" = None → sat ∉ by_country).
Proof.
  split; [reflexivity|].
  apply (string_membership_needs_string_field ["PAYLOAD"; "US"] view records catalogue).
  reflexivity.
Defined.
